(** * weather-server: the request handlers of [src/index.ts] and the
      argument validator of [src/types.ts]

    The server answers two kinds of requests that carry data: reading the one
    weather resource and calling the one tool, [get_forecast].  Both call the
    OpenWeather API through axios and reshape the answer.  The development
    below embeds the two handlers and the validator, with the network and the
    clock made explicit, and proves the properties of the forecast pipeline. *)

From Stdlib Require Import QArith Qminmax Lqa Ascii String.
From stdpp Require Import gmap strings list pretty.

Set Warnings "-register-all".
Local Open Scope string_scope.

(** ** JavaScript values and primitives *)

Module Js.

(** A JavaScript [number] that arrives in a JSON document is a finite
    double, and every finite double is a rational.  The handlers only test
    a number for truthiness and take a minimum with [5]: both are exact on
    doubles, so they are the same operations on the rationals.  The product
    [days * 8] sent as [cnt] is exact as well, short of an overflow that only
    a [days] below [-2^1020] reaches; no property below reads its value. *)
Abbreviation number := Q.

(** The values a decoded JSON document is made of.  [undefined] is not one
    of them: it is what reading an absent property gives, and is [None] in
    a [option json]. *)
Inductive json : Type :=
  | JNull
  | JBool (b : bool)
  | JNumber (n : number)
  | JString (s : string)
  | JArray (items : list json)
  | JObject (fields : gmap string json).

(** [typeof v] *)
Definition typeof (v : option json) : string :=
  match v with
  | None => "undefined"
  | Some JNull => "object"
  | Some (JBool _) => "boolean"
  | Some (JNumber _) => "number"
  | Some (JString _) => "string"
  | Some (JArray _) => "object"
  | Some (JObject _) => "object"
  end.

(** [v === null] and [v === undefined] *)
Definition is_null (v : option json) : bool :=
  match v with Some JNull => true | _ => false end.

Definition is_undefined (v : option json) : bool :=
  match v with None => true | Some _ => false end.

(** [k in v] and [v.k], for a name [k] that is neither an array index nor
    ["length"] nor a member of [Object.prototype] (the handlers use ["city"]
    and ["days"] only).  On [null] and [undefined] JavaScript raises; the
    validator reaches both operations only behind its [typeof] and [null]
    tests. *)
Definition has_property (k : string) (v : option json) : bool :=
  match v with
  | Some (JObject fields) => bool_decide (is_Some (fields !! k))
  | _ => false
  end.

Definition get (v : option json) (k : string) : option json :=
  match v with
  | Some (JObject fields) => fields !! k
  | _ => None
  end.

(** [x || dflt] on an optional number: [undefined], [0] and [-0] are
    falsy. *)
Definition or_default (x : option number) (dflt : number) : number :=
  match x with
  | Some n => if Qeq_bool n 0 then dflt else n
  | None => dflt
  end.

(** [Math.min(a, b)] *)
Definition Math_min (a b : number) : number :=
  if Qle_bool a b then a else b.

(** [s.split(sep)] for a separator of one character.  The result is never
    empty: a string without the separator is its own single piece. *)
Fixpoint split (sep : Ascii.ascii) (s : string) : list string :=
  match s with
  | EmptyString => [""]
  | String c rest =>
      if Ascii.eqb c sep then "" :: split sep rest
      else match split sep rest with
           | piece :: pieces => String c piece :: pieces
           | [] => [String c ""]
           end
  end.

(** [String(v)], which is how a template literal prints a value.  An array
    prints its elements joined by commas, [null] elements as nothing; how a
    number prints is left to [print]. *)
Fixpoint to_string (print : number → string) (v : json) : string :=
  match v with
  | JNull => "null"
  | JBool true => "true"
  | JBool false => "false"
  | JNumber n => print n
  | JString s => s
  | JArray items =>
      String.concat ","
        (List.map (λ item, match item with
                           | JNull => ""
                           | _ => to_string print item
                           end) items)
  | JObject _ => "[object Object]"
  end.

End Js.
Import Js.

(** ** [src/types.ts] *)

Record main_t := { temp : number; humidity : number }.
Record weather_t := { description : string }.
Record wind_t := { speed : number }.

Record OpenWeatherResponse := {
  main : main_t;
  weather : list weather_t;
  wind : wind_t;
  dt_txt : option string
}.

Record WeatherData := {
  wd_temperature : number;
  wd_conditions : string;
  wd_humidity : number;
  wd_wind_speed : number;
  wd_timestamp : string
}.

Record ForecastDay := {
  date : string;
  temperature : number;
  conditions : string
}.

Record GetForecastArgs := {
  city : string;
  days : option number
}.

Definition isValidForecastArgs (args : option json) : bool :=
  String.eqb (typeof args) "object" &&
  negb (is_null args) &&
  has_property "city" args &&
  String.eqb (typeof (get args "city")) "string" &&
  (is_undefined (get args "days") || String.eqb (typeof (get args "days")) "number").

(** The type guard [args is GetForecastArgs]: after a successful check the
    handler reads [args.city] as a string and [args.days] as an optional
    number. *)
Definition as_GetForecastArgs (args : option json) : GetForecastArgs :=
  {| city := match get args "city" with Some (JString s) => s | _ => "" end;
     days := match get args "days" with Some (JNumber n) => Some n | _ => None end |}.

(** The validator in the spec's words: a non-null object with a [city] field
    of string type whose [days] field, when present, is a number. *)
Definition accepted_shape (raw : option json) : Prop :=
  ∃ fields : gmap string json,
    raw = Some (JObject fields) ∧
    (∃ s, fields !! "city" = Some (JString s)) ∧
    (∀ v, fields !! "days" = Some v → ∃ n, v = JNumber n).

(** ** The outside world of [src/index.ts]: axios, the clock, exceptions *)

(** The query string of one upstream call, next to the [appid] and [units]
    that [axios.create] fixes for every call. *)
Record query := {
  q : string;
  cnt : option number
}.

Record request := {
  endpoint : string;
  params : query
}.

(** What the handlers read of an axios error: [error.response], its [data]
    (the decoded body, which may be anything, also [null] or [undefined]) and
    [error.message]. *)
Record error_response := { data : option json }.

Record AxiosError := {
  response : option error_response;
  message : string
}.

Inductive axios_result (A : Type) : Type :=
  | Resolved (data : A)
  | Rejected (error : AxiosError).
Arguments Resolved {A} data.
Arguments Rejected {A} error.

(** The provider, the clock and the engine's printing of numbers.  [clock n]
    is what the [n]-th evaluation of [new Date().toISOString()] returns, and
    [Number_toString n] is [String(n)]. *)
Record Env := {
  current_weather : query → axios_result OpenWeatherResponse;
  forecast : query → axios_result (list OpenWeatherResponse);
  clock : nat → string;
  Number_toString : number → string
}.

(** The state a handler can change: the upstream calls issued so far and the
    number of clock readings taken. *)
Record world := {
  calls : list request;
  ticks : nat
}.

Inductive ErrorCode : Type :=
  | ParseError
  | InvalidRequest
  | MethodNotFound
  | InvalidParams
  | InternalError.

(** What a handler can throw.  [OutOfFuel] is not a JavaScript exception: it
    marks a loop of the model that was given too few steps, and
    [forecast_loop_fuel] shows that the handler never meets it. *)
Inductive exn : Type :=
  | McpError (code : ErrorCode) (msg : string)
  | TypeError (msg : string)
  | AxiosErr (error : AxiosError)
  | OutOfFuel.

Inductive completion (A : Type) : Type :=
  | Return (a : A)
  | Throw (e : exn).
Arguments Return {A} a.
Arguments Throw {A} e.

(** Handlers are state-passing computations that return or throw. *)
Definition M (A : Type) : Type := world → completion A * world.

#[global] Instance M_ret : MRet M := λ A a w, (Return a, w).

#[global] Instance M_bind : MBind M := λ A B f m w,
  match m w with
  | (Return a, w') => f a w'
  | (Throw e, w') => (Throw e, w')
  end.

Definition throw {A : Type} (e : exn) : M A := λ w, (Throw e, w).

(** [try { body } catch (error) { handler }] *)
Definition try_catch {A : Type} (body : M A) (handler : exn → M A) : M A := λ w,
  match body w with
  | (Return a, w') => (Return a, w')
  | (Throw e, w') => handler e w'
  end.

(** [new Date().toISOString()] *)
Definition Date_toISOString (env : Env) : M string := λ w,
  (Return (clock env (ticks w)), {| calls := calls w; ticks := S (ticks w) |}).

(** [await this.axiosInstance.get(endpoint, { params })]: the call is
    recorded, and a rejected promise is thrown at the [await]. *)
Definition axios_get {A : Type} (provider : query → axios_result A)
    (endpoint : string) (params : query) : M A := λ w,
  let w' := {| calls := calls w ++ [{| endpoint := endpoint; params := params |}];
               ticks := ticks w |} in
  match provider params with
  | Resolved data => (Return data, w')
  | Rejected error => (Throw (AxiosErr error), w')
  end.

(** [${error.response?.data.message ?? error.message}]: [?.] stops at a
    missing [response] only, so reading [.message] of a [data] that is [null]
    or [undefined] throws; a [message] that is [null] or [undefined] gives
    way to [error.message]; what is left is printed by the template. *)
Definition error_text (env : Env) (error : AxiosError) : M string :=
  match response error with
  | None => mret (message error)
  | Some r =>
      match data r with
      | None =>
          throw (TypeError "Cannot read properties of undefined (reading 'message')")
      | Some JNull =>
          throw (TypeError "Cannot read properties of null (reading 'message')")
      | Some body =>
          match get (Some body) "message" with
          | None | Some JNull => mret (message error)
          | Some v => mret (to_string (Number_toString env) v)
          end
      end
  end.

(** ** [src/index.ts] *)

Module API_CONFIG.
Definition BASE_URL : string := "http://api.openweathermap.org/data/2.5".
Definition DEFAULT_CITY : string := "San Francisco".
Module ENDPOINTS.
Definition CURRENT : string := "weather".
Definition FORECAST : string := "forecast".
End ENDPOINTS.
End API_CONFIG.

(** The text of a result.  [JSON.stringify(v, null, 2)] is kept as the value
    it prints. *)
Inductive text_t : Type :=
  | Text (s : string)
  | JSON_stringify_weather (v : WeatherData)
  | JSON_stringify_forecasts (v : list ForecastDay).

Record ResourceContents := {
  uri : string;
  mimeType : string;
  rc_text : text_t
}.

Record ReadResourceResult := { contents : list ResourceContents }.

Record TextContent := {
  type : string;
  text : text_t
}.

Record CallToolResult := {
  content : list TextContent;
  isError : option bool
}.

(** What reading [.description] of [undefined] throws. *)
Definition description_error : exn :=
  TypeError "Cannot read properties of undefined (reading 'description')".

(** [x[0].description] where [x[0]] may be [undefined] *)
Definition first_description (ws : list weather_t) : M string :=
  match ws !! 0%nat with
  | Some w0 => mret (description w0)
  | None => throw description_error
  end.

(** The handler of [ReadResourceRequestSchema] *)
Definition read_resource (env : Env) (request_uri : string) : M ReadResourceResult :=
  let city := API_CONFIG.DEFAULT_CITY in
  if negb (String.eqb request_uri ("weather://" ++ city ++ "/current")) then
    throw (McpError InvalidRequest ("Unknown resource: " ++ request_uri))
  else
    try_catch
      (data ← axios_get (current_weather env) API_CONFIG.ENDPOINTS.CURRENT
                {| q := city; cnt := None |};
       conditions ← first_description (weather data);
       timestamp ← Date_toISOString env;
       let weatherData :=
         {| wd_temperature := temp (main data);
            wd_conditions := conditions;
            wd_humidity := humidity (main data);
            wd_wind_speed := speed (wind data);
            wd_timestamp := timestamp |} in
       mret {| contents := [{| uri := request_uri;
                               mimeType := "application/json";
                               rc_text := JSON_stringify_weather weatherData |}] |})
      (λ error,
         match error with
         | AxiosErr e =>
             reason ← error_text env e;
             throw (McpError InternalError ("Weather API error: " ++ reason))
         | _ => throw error
         end).

(** [dayData.dt_txt?.split(' ')[0] ?? new Date().toISOString().split('T')[0]]:
    the clock is read only when the left side is [undefined].  A [split]
    has a first piece ([split_head] below), so the last branch is never
    taken; it is there to make the match total. *)
Definition forecast_date (env : Env) (dayData : OpenWeatherResponse) : M string :=
  match dt_txt dayData ≫= (λ s, split " " s !! 0%nat) with
  | Some d => mret d
  | None =>
      now ← Date_toISOString env;
      match split "T" now !! 0%nat with
      | Some d => mret d
      | None => throw (TypeError "split returned no piece")
      end
  end.

(** The body of the loop: the object literal pushed onto [forecasts]. *)
Definition forecast_day (env : Env) (dayData : OpenWeatherResponse) : M ForecastDay :=
  d ← forecast_date env dayData;
  c ← first_description (weather dayData);
  mret {| date := d; temperature := temp (main dayData); conditions := c |}.

(** [for (let i = 0; i < list.length; i += 8) { forecasts.push(...) }] from
    the loop head with the current [i] and [forecasts]. *)
Fixpoint forecast_loop (env : Env) (fuel : nat) (data_list : list OpenWeatherResponse)
    (i : nat) (forecasts : list ForecastDay) : M (list ForecastDay) :=
  if decide (i < length data_list)%nat then
    match fuel with
    | O => throw OutOfFuel
    | S fuel' =>
        match data_list !! i with
        | Some dayData =>
            day ← forecast_day env dayData;
            forecast_loop env fuel' data_list (i + 8)%nat (forecasts ++ [day])
        | None => throw (TypeError "Cannot read properties of undefined (reading 'dt_txt')")
        end
    end
  else mret forecasts.

(** [Math.min(request.params.arguments.days || 3, 5)] *)
Definition effective_days (args : GetForecastArgs) : number :=
  Math_min (or_default (days args) 3) 5.

(** The handler of [CallToolRequestSchema] *)
Definition call_tool (env : Env) (name : string) (arguments : option json)
    : M CallToolResult :=
  if negb (String.eqb name "get_forecast") then
    throw (McpError MethodNotFound ("Unknown tool: " ++ name))
  else if negb (isValidForecastArgs arguments) then
    throw (McpError InvalidParams "Invalid forecast arguments")
  else
    let city := city (as_GetForecastArgs arguments) in
    let days := effective_days (as_GetForecastArgs arguments) in
    try_catch
      (data_list ← axios_get (forecast env) API_CONFIG.ENDPOINTS.FORECAST
                {| q := city; cnt := Some (days * 8)%Q |};
       forecasts ← forecast_loop env (length data_list) data_list 0 [];
       mret {| content := [{| type := "text";
                              text := JSON_stringify_forecasts forecasts |}];
               isError := None |})
      (λ error,
         match error with
         | AxiosErr e =>
             reason ← error_text env e;
             mret {| content := [{| type := "text";
                                    text := Text ("Weather API error: " ++ reason) |}];
                     isError := Some true |}
         | _ => throw error
         end).

(** ** Names for what the handlers compute, and the words of the spec *)

(** The request that a valid call issues. *)
Definition forecast_query (raw : option json) : query :=
  {| q := city (as_GetForecastArgs raw);
     cnt := Some (effective_days (as_GetForecastArgs raw) * 8)%Q |}.

Definition forecast_request (raw : option json) : request :=
  {| endpoint := API_CONFIG.ENDPOINTS.FORECAST; params := forecast_query raw |}.

Definition called (w : world) (r : request) : world :=
  {| calls := (calls w ++ [r])%list; ticks := ticks w |}.

Definition error_result (s : string) : CallToolResult :=
  {| content := [{| type := "text"; text := Text s |}]; isError := Some true |}.

Definition forecast_result (forecasts : list ForecastDay) : CallToolResult :=
  {| content := [{| type := "text"; text := JSON_stringify_forecasts forecasts |}];
     isError := None |}.

(** What the two [catch] blocks do with an axios error. *)
Definition tool_catch (env : Env) (e : AxiosError) : M CallToolResult :=
  reason ← error_text env e;
  mret (error_result ("Weather API error: " ++ reason)).

Definition resource_catch (env : Env) (e : AxiosError) : M ReadResourceResult :=
  reason ← error_text env e;
  throw (McpError InternalError ("Weather API error: " ++ reason)).

(** The body of an axios error gives a message to read: there is no
    response, or its [data] is neither [null] nor [undefined]. *)
Definition readable (e : AxiosError) : Prop :=
  ∀ r, response e = Some r → ∃ body, data r = Some body ∧ body ≠ JNull.

(** The provider's message, when the error carries one: the [message]
    property of the response body, unless it is [null]. *)
Definition provider_message (e : AxiosError) : option json :=
  match response e ≫= data with
  | Some body =>
      match get (Some body) "message" with
      | Some JNull => None
      | m => m
      end
  | None => None
  end.

(** The text both handlers report for a readable axios error. *)
Definition reported_text (env : Env) (e : AxiosError) : string :=
  "Weather API error: " ++
  match provider_message e with
  | Some m => to_string (Number_toString env) m
  | None => message e
  end.

(** The substring before the first occurrence of a character, in the
    spec's words; the whole string when the character does not occur. *)
Definition before_first (sep : Ascii.ascii) (s : string) : string :=
  match index 0 (String sep "") s with
  | Some n => substring 0 n s
  | None => s
  end.

(** The world after the date of an entry has been computed: the clock was
    read exactly when the sample has no [dt_txt]. *)
Definition after_date (dayData : OpenWeatherResponse) (w : world) : world :=
  match dt_txt dayData with
  | Some _ => w
  | None => {| calls := calls w; ticks := S (ticks w) |}
  end.

(** The entry built from a sample when the clock reading number [tick] is
    the one used for a missing [dt_txt]. *)
Definition day_at (env : Env) (tick : nat) (dayData : OpenWeatherResponse)
    (w0 : weather_t) : ForecastDay :=
  {| date := match dt_txt dayData with
             | Some s => before_first " " s
             | None => before_first "T" (clock env tick)
             end;
     temperature := temp (main dayData);
     conditions := description w0 |}.

(** The number of indices [i, i + 8, i + 16, ...] below [n]. *)
Definition strides (n i : nat) : nat := ((n - i + 7) / 8)%nat.

(** The sample behind entry [k] of a run that started at index [i] in world
    [w] and ended in world [w']. *)
Definition entry_from (env : Env) (data_list : list OpenWeatherResponse)
    (w w' : world) (j : nat) (day : ForecastDay) : Prop :=
  ∃ (dayData : OpenWeatherResponse) (w0 : weather_t) (tick : nat),
    data_list !! j = Some dayData ∧
    weather dayData !! 0%nat = Some w0 ∧
    (ticks w ≤ tick)%nat ∧
    (dt_txt dayData = None → tick < ticks w')%nat ∧
    day = day_at env tick dayData w0.

Definition selected_empty (data_list : list OpenWeatherResponse) : Prop :=
  ∃ (k : nat) (dayData : OpenWeatherResponse),
    data_list !! (8 * k)%nat = Some dayData ∧ weather dayData = [].

Definition default_uri : string :=
  "weather://" ++ API_CONFIG.DEFAULT_CITY ++ "/current".

(** ** Sample data *)

Definition paris_args (d : number) : option json :=
  Some (JObject (<["city" := JString "Paris"]> (<["days" := JNumber d]> ∅))).

Definition paris_no_days : option json :=
  Some (JObject (<["city" := JString "Paris"]> ∅)).


Definition no_city : option json :=
  Some (JObject (<["days" := JNumber 2]> ∅)).

Definition days_as_text : option json :=
  Some (JObject (<["city" := JString "Paris"]> (<["days" := JString "2"]> ∅))).

(** The [k]-th 3-hour sample of a listing: its temperature is its index. *)
Definition sample (k : nat) : OpenWeatherResponse :=
  {| main := {| temp := inject_Z (Z.of_nat k); humidity := 50 |};
     weather := [{| description := "clear sky" |}];
     wind := {| speed := 3 |};
     dt_txt := Some "2024-05-01 09:00:00" |}.

(** A sample without conditions and one without a date. *)
Definition sample_no_weather : OpenWeatherResponse :=
  {| main := {| temp := 11; humidity := 50 |};
     weather := [];
     wind := {| speed := 3 |};
     dt_txt := Some "2024-05-01 09:00:00" |}.

Definition sample_no_date : OpenWeatherResponse :=
  {| main := {| temp := 12; humidity := 50 |};
     weather := [{| description := "mist" |}];
     wind := {| speed := 3 |};
     dt_txt := None |}.

Definition listing (n : nat) : list OpenWeatherResponse := sample <$> seq 0 n.

Definition noon (n : nat) : string := "2024-05-01T12:00:00.000Z".

(** Whole numbers in decimal; the samples print no other number. *)
Definition whole_number (n : number) : string := pretty (Qnum n).

(** A provider that answers every forecast call with [n] samples. *)
Definition provider (n : nat) : Env :=
  {| current_weather := λ _, Resolved (sample 0);
     forecast := λ _, Resolved (listing n);
     clock := noon;
     Number_toString := whole_number |}.

(** A provider that answers every forecast call with the given list. *)
Definition provider_of (data_list : list OpenWeatherResponse) : Env :=
  {| current_weather := λ _, Resolved (sample 0);
     forecast := λ _, Resolved data_list;
     clock := noon;
     Number_toString := whole_number |}.

(** Nine samples of which only the two that the loop visits are well
    formed. *)
Definition ragged_listing : list OpenWeatherResponse :=
  (sample 0 :: replicate 7 sample_no_weather ++ [sample 8])%list.

(** A provider whose answers carry no conditions, or no date. *)
Definition provider_no_weather : Env :=
  {| current_weather := λ _, Resolved sample_no_weather;
     forecast := λ _, Resolved (listing 8 ++ [sample_no_weather])%list;
     clock := noon;
     Number_toString := whole_number |}.

Definition provider_no_date : Env :=
  {| current_weather := λ _, Resolved sample_no_date;
     forecast := λ _, Resolved [sample_no_date];
     clock := noon;
     Number_toString := whole_number |}.






Definition idle : world := {| calls := []; ticks := 0 |}.

(** ** The catalog handlers of [src/index.ts] *)

Module Resource.
Record t := {
  uri : string;
  name : string;
  mimeType : string;
  description : string
}.
End Resource.

Record ListResourcesResult := { resources : list Resource.t }.

(** The handler of [ListResourcesRequestSchema] *)
Definition list_resources : M ListResourcesResult :=
  mret {| resources :=
    [{| Resource.uri := "weather://" ++ API_CONFIG.DEFAULT_CITY ++ "/current";
        Resource.name := "Current weather in " ++ API_CONFIG.DEFAULT_CITY;
        Resource.mimeType := "application/json";
        Resource.description :=
          "Real-time weather data including temperature, conditions, humidity, and wind speed" |}] |}.

Module Tool.
Record t := {
  name : string;
  description : string;
  inputSchema : json
}.
End Tool.

Record ListToolsResult := { tools : list Tool.t }.

(** The handler of [ListToolsRequestSchema] *)
Definition list_tools : M ListToolsResult :=
  mret {| tools :=
    [{| Tool.name := "get_forecast";
        Tool.description := "Get weather forecast for a city";
        Tool.inputSchema := JObject (list_to_map
          [("type", JString "object");
           ("properties", JObject (list_to_map
              [("city", JObject (list_to_map
                  [("type", JString "string");
                   ("description", JString "City name")]));
               ("days", JObject (list_to_map
                  [("type", JString "number");
                   ("description", JString "Number of days (1-5)");
                   ("minimum", JNumber 1);
                   ("maximum", JNumber 5)]))]));
           ("required", JArray [JString "city"])]) |}] |}.

(** ** Reading a JSON schema *)

(** The catalogs are constants: what a handler returns from the idle world. *)
Definition listed_resources : list Resource.t :=
  match list_resources idle with
  | (Return r, _) => resources r
  | (Throw _, _) => []
  end.

Definition listed_tools : list Tool.t :=
  match list_tools idle with
  | (Return r, _) => tools r
  | (Throw _, _) => []
  end.

(** The input schema the tool catalog advertises for [get_forecast]. *)
Definition advertised_schema : json :=
  match listed_tools with
  | tool :: _ => Tool.inputSchema tool
  | [] => JNull
  end.

(** The names under [required], the [type] declared for a property, and a
    numeric keyword ([minimum], [maximum]) declared for a property. *)
Definition schema_required (schema : json) : list string :=
  match get (Some schema) "required" with
  | Some (JArray items) =>
      omap (λ item, match item with JString s => Some s | _ => None end) items
  | _ => []
  end.

Definition schema_property (schema : json) (k : string) : option json :=
  get (get (Some schema) "properties") k.

Definition schema_type (schema : json) (k : string) : option string :=
  match get (schema_property schema k) "type" with
  | Some (JString ty) => Some ty
  | _ => None
  end.


(** An argument value meets the [required] and [type] keywords of a schema
    of type [object]; the numeric bounds are left out. *)
Definition meets_required_and_types (schema : json) (raw : option json) : Prop :=
  ∃ fields : gmap string json,
    raw = Some (JObject fields) ∧
    (∀ k, k ∈ schema_required schema → is_Some (fields !! k)) ∧
    (∀ k ty v, schema_type schema k = Some ty → fields !! k = Some v →
               typeof (Some v) = ty).

(** ** The samples the loop visits, as a list *)

(** Every 8th element of a list, the first after [skip] elements. *)
Fixpoint stride_from {A : Type} (skip : nat) (l : list A) : list A :=
  match l with
  | [] => []
  | x :: rest =>
      match skip with
      | O => x :: stride_from 7 rest
      | S skip' => stride_from skip' rest
      end
  end.

Definition every_8th {A : Type} (l : list A) : list A := stride_from 0 l.

(** The entries pushed for a list of samples, one after the other. *)
Fixpoint collect_days (env : Env) (selected : list OpenWeatherResponse)
    (forecasts : list ForecastDay) : M (list ForecastDay) :=
  match selected with
  | [] => mret forecasts
  | dayData :: rest =>
      day ← forecast_day env dayData;
      collect_days env rest (forecasts ++ [day])
  end.

(** The entry of a sample that carries its date and its conditions. *)
Definition dated_day (dayData : OpenWeatherResponse) : option ForecastDay :=
  match dt_txt dayData, weather dayData !! 0%nat with
  | Some s, Some w0 =>
      Some {| date := before_first " " s;
              temperature := temp (main dayData);
              conditions := description w0 |}
  | _, _ => None
  end.

(** A character occurs in a string. *)
Fixpoint occurs (c : Ascii.ascii) (s : string) : bool :=
  match s with
  | EmptyString => false
  | String c' rest => Ascii.eqb c' c || occurs c rest
  end.

(** The request and the world of a resource read. *)
Definition current_query : query :=
  {| q := API_CONFIG.DEFAULT_CITY; cnt := None |}.

Definition current_request : request :=
  {| endpoint := API_CONFIG.ENDPOINTS.CURRENT; params := current_query |}.

Definition weather_result (request_uri : string) (v : WeatherData) : ReadResourceResult :=
  {| contents := [{| uri := request_uri;
                     mimeType := "application/json";
                     rc_text := JSON_stringify_weather v |}] |}.

Definition ticked (w : world) : world :=
  {| calls := calls w; ticks := S (ticks w) |}.

(** * Properties *)

(** ** The validator *)

Lemma typeof_string (v : option json) :
  String.eqb (typeof v) "string" = true ↔ ∃ s, v = Some (JString s).
Proof.
  destruct v as [[]|]; simpl; split; intros H; try discriminate; eauto;
    destruct H as [s' H]; discriminate.
Qed.

Lemma typeof_number (v : option json) :
  String.eqb (typeof v) "number" = true ↔ ∃ n, v = Some (JNumber n).
Proof.
  destruct v as [[]|]; simpl; split; intros H; try discriminate; eauto;
    destruct H as [n' H]; discriminate.
Qed.

Lemma isValidForecastArgs_object (fields : gmap string json) :
  isValidForecastArgs (Some (JObject fields)) = true ↔
  (∃ s, fields !! "city" = Some (JString s)) ∧
  (∀ v, fields !! "days" = Some v → ∃ n, v = JNumber n).
Proof.
  unfold isValidForecastArgs. cbn [typeof is_null has_property get negb].
  rewrite !andb_true_iff, orb_true_iff, typeof_string, typeof_number.
  split.
  - intros [[_ [s Hs]] Hd]. split; [eauto|].
    intros v Hv. rewrite Hv in Hd. destruct Hd as [Hd | [n Hn]]; [discriminate|].
    exists n. congruence.
  - intros [[s Hs] Hd]. repeat split; eauto.
    + rewrite Hs. reflexivity.
    + destruct (fields !! "days") as [v|] eqn:Hv; [right | left; reflexivity].
      destruct (Hd v eq_refl) as [n ->]. eauto.
Qed.

Lemma isValidForecastArgs_iff (raw : option json) :
  isValidForecastArgs raw = true ↔ accepted_shape raw.
Proof.
  unfold accepted_shape. split.
  - destruct raw as [[]|]; try discriminate.
    intros H. apply isValidForecastArgs_object in H. eauto.
  - intros (fields & -> & H). apply isValidForecastArgs_object. exact H.
Qed.

(** What the type guard gives the handler once the check has passed. *)
Lemma as_GetForecastArgs_valid (raw : option json) :
  isValidForecastArgs raw = true →
  get raw "city" = Some (JString (city (as_GetForecastArgs raw))) ∧
  get raw "days" = JNumber <$> days (as_GetForecastArgs raw).
Proof.
  intros H. apply isValidForecastArgs_iff in H.
  destruct H as (fields & -> & [s Hs] & Hd). unfold as_GetForecastArgs. simpl.
  rewrite Hs. split; [reflexivity|].
  destruct (fields !! "days") as [v|] eqn:Hv; [|reflexivity].
  destruct (Hd v eq_refl) as [n ->]. reflexivity.
Qed.

(** C6: the validator accepts a raw input exactly when it is a non-null
    object with a [city] field of string type whose [days] field, when
    present, is a number; every other input is rejected; and a [days] field
    holding any number at all is accepted, whatever its range. *)
Theorem isValidForecastArgs_spec (raw : option json) :
  (isValidForecastArgs raw = true ↔ accepted_shape raw) ∧
  (isValidForecastArgs raw = false ↔ ¬ accepted_shape raw) ∧
  (∀ (fields : gmap string json) (s : string) (n : number),
     fields !! "city" = Some (JString s) →
     isValidForecastArgs (Some (JObject (<["days" := JNumber n]> fields))) = true).
Proof.
  split; [apply isValidForecastArgs_iff|]. split.
  - rewrite <- isValidForecastArgs_iff. destruct (isValidForecastArgs raw); split; congruence.
  - intros fields s n Hs. apply isValidForecastArgs_object. split.
    + exists s. rewrite lookup_insert_ne; [exact Hs | discriminate].
    + intros v Hv. rewrite lookup_insert_eq in Hv. exists n. congruence.
Qed.

Lemma isValidForecastArgs_spec_witness :
  isValidForecastArgs (paris_args (-7)) = true ∧
  isValidForecastArgs (Some (JObject (<["days" := JNumber 1000]> {["city" := JString "Oslo"]})))
    = true.
Proof.
  split.
  - apply (isValidForecastArgs_spec (paris_args (-7))).
    exists (<["city" := JString "Paris"]> (<["days" := JNumber (-7)]> ∅)).
    split; [reflexivity|]. split.
    + exists "Paris". reflexivity.
    + intros v Hv. exists (-7)%Q. vm_compute in Hv. congruence.
  - apply (isValidForecastArgs_spec None) with (s := "Oslo"). reflexivity.
Defined.

(** ** The day count *)

Lemma Math_min_Qmin (a b : number) : Math_min a b == Qmin a b.
Proof.
  unfold Math_min. destruct (Qle_bool a b) eqn:Hab.
  - apply Qle_bool_iff in Hab. symmetry. apply Q.min_l. exact Hab.
  - symmetry. apply Q.min_r. apply Qlt_le_weak, Qnot_le_lt.
    intros H. apply Qle_bool_iff in H. congruence.
Qed.

(** ** The ways a valid call ends *)

(** The three ways a valid [get_forecast] call ends, by what axios and the
    loop do. *)
Lemma call_tool_valid (env : Env) (raw : option json) (w : world) :
  isValidForecastArgs raw = true →
  call_tool env "get_forecast" raw w =
  match forecast env (forecast_query raw) with
  | Rejected e => tool_catch env e (called w (forecast_request raw))
  | Resolved data_list =>
      match forecast_loop env (length data_list) data_list 0 []
              (called w (forecast_request raw)) with
      | (Return forecasts, w') => (Return (forecast_result forecasts), w')
      | (Throw (AxiosErr e), w') => tool_catch env e w'
      | (Throw e, w') => (Throw e, w')
      end
  end.
Proof.
  intros Hv. unfold call_tool. rewrite Hv. cbn [String.eqb Ascii.eqb Bool.eqb negb].
  unfold try_catch, mbind, M_bind, axios_get. fold (forecast_query raw).
  fold (forecast_request raw). fold (called w (forecast_request raw)).
  destruct (forecast env (forecast_query raw)) as [data_list | e]; [|reflexivity].
  destruct (forecast_loop _ _ _ _ _ _) as [[forecasts | e] w']; [reflexivity|].
  destruct e; reflexivity.
Qed.

(** Reading the text of an axios error leaves the world as it is; it gives
    a text when the body is readable and throws when it is not. *)
Lemma error_text_world (env : Env) (e : AxiosError) (w : world) :
  snd (error_text env e w) = w.
Proof.
  unfold error_text. destruct (response e) as [r|]; [|reflexivity].
  destruct (data r) as [[]|]; simpl; try reflexivity.
  destruct (fields !! "message") as [[]|]; reflexivity.
Qed.

Lemma error_text_readable (env : Env) (e : AxiosError) (w : world) :
  readable e →
  error_text env e w
  = (Return match provider_message e with
            | Some m => to_string (Number_toString env) m
            | None => message e
            end, w).
Proof.
  intros Hr. unfold error_text, provider_message.
  destruct (response e) as [r|] eqn:Hresp; [|reflexivity].
  destruct (Hr r Hresp) as (body & Hdata & Hbody). simpl. rewrite Hdata.
  destruct body; try contradiction; simpl; try reflexivity.
  destruct (fields !! "message") as [[]|]; reflexivity.
Qed.

Lemma error_text_unreadable (env : Env) (e : AxiosError) (w : world) :
  ¬ readable e → ∃ msg, error_text env e w = (Throw (TypeError msg), w).
Proof.
  intros Hr. unfold error_text. destruct (response e) as [r|] eqn:Hresp.
  - destruct (data r) as [[]|] eqn:Hdata; try (eexists; reflexivity);
      exfalso; apply Hr; intros r' Hr'; rewrite Hresp in Hr'; injection Hr' as <-;
      eexists; (split; [exact Hdata | discriminate]).
  - exfalso. apply Hr. intros r' Hr'. rewrite Hresp in Hr'. discriminate.
Qed.

Lemma tool_catch_world (env : Env) (e : AxiosError) (w : world) :
  snd (tool_catch env e w) = w.
Proof.
  unfold tool_catch, mbind, M_bind. pose proof (error_text_world env e w) as Hw.
  destruct (error_text env e w) as [[reason | x] w']; simpl in *; exact Hw.
Qed.

Lemma readable_dec (e : AxiosError) : readable e ∨ ¬ readable e.
Proof.
  unfold readable. destruct (response e) as [r|]; [|left; intros r Hr; discriminate].
  destruct (data r) as [body|] eqn:Hdata.
  - destruct body; try (left; intros r' [= <-]; eexists; split; [exact Hdata | discriminate]).
    right. intros Hr. destruct (Hr r eq_refl) as (body & Hbody & Hnull). congruence.
  - right. intros Hr. destruct (Hr r eq_refl) as (body & Hbody & _). congruence.
Qed.

(** The two ways each [catch] block ends on an axios error. *)
Lemma tool_catch_cases (env : Env) (e : AxiosError) (w : world) :
  (readable e ∧ tool_catch env e w = (Return (error_result (reported_text env e)), w)) ∨
  (¬ readable e ∧ ∃ msg, tool_catch env e w = (Throw (TypeError msg), w)).
Proof.
  unfold tool_catch, mbind, M_bind. destruct (readable_dec e) as [Hr | Hr]; [left | right];
    (split; [exact Hr|]).
  - rewrite (error_text_readable env e w Hr). reflexivity.
  - destruct (error_text_unreadable env e w Hr) as [msg ->]. exists msg. reflexivity.
Qed.

Lemma resource_catch_cases (env : Env) (e : AxiosError) (w : world) :
  (readable e ∧
   resource_catch env e w = (Throw (McpError InternalError (reported_text env e)), w)) ∨
  (¬ readable e ∧ ∃ msg, resource_catch env e w = (Throw (TypeError msg), w)).
Proof.
  unfold resource_catch, mbind, M_bind. destruct (readable_dec e) as [Hr | Hr]; [left | right];
    (split; [exact Hr|]).
  - rewrite (error_text_readable env e w Hr). reflexivity.
  - destruct (error_text_unreadable env e w Hr) as [msg ->]. exists msg. reflexivity.
Qed.

(** ** Splitting a string *)

Lemma split_not_nil (sep : Ascii.ascii) (s : string) : split sep s ≠ [].
Proof.
  induction s as [|c rest IH]; simpl; [discriminate|].
  destruct (Ascii.eqb c sep); [discriminate|].
  destruct (split sep rest); discriminate.
Qed.

Lemma before_first_cons (sep c : Ascii.ascii) (rest : string) :
  before_first sep (String c rest) =
  if Ascii.eqb c sep then "" else String c (before_first sep rest).
Proof.
  unfold before_first. cbn [index String.prefix].
  destruct (Ascii.eqb_spec c sep) as [-> | Hne].
  - destruct (ascii_dec sep sep) as [_|Hn]; [|congruence].
    destruct rest; reflexivity.
  - destruct (ascii_dec sep c) as [Heq|_]; [congruence|].
    destruct (index 0 (String sep "") rest) as [n|]; reflexivity.
Qed.

Lemma split_head (sep : Ascii.ascii) (s : string) :
  split sep s !! 0%nat = Some (before_first sep s).
Proof.
  induction s as [|c rest IH]; [reflexivity|].
  rewrite before_first_cons. simpl.
  destruct (Ascii.eqb c sep); [reflexivity|].
  destruct (split sep rest) as [|piece pieces]; [discriminate|].
  simpl in *. congruence.
Qed.

(** ** One forecast entry *)

Lemma forecast_date_eq (env : Env) (dayData : OpenWeatherResponse) (w : world) :
  forecast_date env dayData w =
  (Return (date (day_at env (ticks w) dayData {| description := "" |})),
   after_date dayData w).
Proof.
  unfold forecast_date, after_date, day_at. simpl.
  destruct (dt_txt dayData) as [s|]; simpl.
  - rewrite split_head. reflexivity.
  - unfold mbind, M_bind, Date_toISOString. rewrite split_head. reflexivity.
Qed.

Lemma forecast_day_eq (env : Env) (dayData : OpenWeatherResponse) (w : world) :
  forecast_day env dayData w =
  match weather dayData !! 0%nat with
  | Some w0 => (Return (day_at env (ticks w) dayData w0), after_date dayData w)
  | None => (Throw description_error, after_date dayData w)
  end.
Proof.
  unfold forecast_day, mbind, M_bind. rewrite forecast_date_eq.
  unfold first_description. destruct (weather dayData !! 0%nat); reflexivity.
Qed.

Lemma after_date_calls (dayData : OpenWeatherResponse) (w : world) :
  calls (after_date dayData w) = calls w.
Proof. unfold after_date. destruct (dt_txt dayData); reflexivity. Qed.

Lemma after_date_ticks (dayData : OpenWeatherResponse) (w : world) :
  (ticks w ≤ ticks (after_date dayData w))%nat ∧
  (dt_txt dayData = None → ticks w < ticks (after_date dayData w))%nat.
Proof. unfold after_date. destruct (dt_txt dayData); simpl; split; (lia || discriminate). Qed.

(** ** The aggregation loop *)

Lemma strides_done (n i : nat) : (n ≤ i)%nat → strides n i = 0%nat.
Proof.
  intros H. unfold strides. replace (n - i + 7)%nat with 7%nat by lia. reflexivity.
Qed.

Lemma strides_step (n i : nat) : (i < n)%nat → strides n i = S (strides n (i + 8)).
Proof.
  intros H. unfold strides. destruct (le_lt_dec (i + 8) n) as [Hge | Hlt].
  - replace (n - i + 7)%nat with ((n - (i + 8) + 7) + 1 * 8)%nat by lia.
    rewrite Nat.div_add by discriminate. lia.
  - replace (n - (i + 8) + 7)%nat with 7%nat by lia.
    change (7 / 8)%nat with 0%nat. symmetry. apply Nat.div_unique with (r := (n - i - 1)%nat); lia.
Qed.

Lemma forecast_loop_returns (env : Env) (data_list : list OpenWeatherResponse)
    (fuel : nat) :
  ∀ (i : nat) (forecasts result : list ForecastDay) (w w' : world),
    forecast_loop env fuel data_list i forecasts w = (Return result, w') →
    calls w' = calls w ∧ (ticks w ≤ ticks w')%nat ∧
    ∃ new : list ForecastDay,
      result = (forecasts ++ new)%list ∧
      length new = strides (length data_list) i ∧
      ∀ (k : nat) (day : ForecastDay),
        new !! k = Some day → entry_from env data_list w w' (i + 8 * k) day.
Proof.
  induction fuel as [|fuel IH]; intros i forecasts result w w' Hrun;
    simpl in Hrun; destruct (decide (i < length data_list)%nat) as [Hlt | Hge].
  - discriminate.
  - injection Hrun as <- <-. repeat split; [lia|]. exists [].
    rewrite app_nil_r, strides_done by lia. repeat split. intros k day Hk. discriminate.
  - destruct (data_list !! i) as [dayData|] eqn:Hi; [|discriminate].
    unfold mbind, M_bind in Hrun. rewrite forecast_day_eq in Hrun.
    destruct (weather dayData !! 0%nat) as [w0|] eqn:Hw0; [|discriminate].
    apply IH in Hrun. destruct Hrun as (Hcalls & Hticks & new & -> & Hlen & Hnew).
    destruct (after_date_ticks dayData w) as [Hle Hnone].
    rewrite after_date_calls in Hcalls. repeat split; [exact Hcalls | lia |].
    exists (day_at env (ticks w) dayData w0 :: new). repeat split.
    + rewrite <- app_assoc. reflexivity.
    + simpl. rewrite Hlen. symmetry. apply strides_step. exact Hlt.
    + intros [|k] day Hk.
      * injection Hk as <-. exists dayData, w0, (ticks w).
        rewrite Nat.mul_0_r, Nat.add_0_r. repeat split; auto. intros Hn. specialize (Hnone Hn). lia.
      * destruct (Hnew k day Hk) as (d & d0 & tick & Hd & Hd0 & Ht & Ht' & ->).
        exists d, d0, tick. replace (i + 8 * S k)%nat with (i + 8 + 8 * k)%nat by lia.
        repeat split; auto. lia.
  - injection Hrun as <- <-. repeat split; [lia|]. exists [].
    rewrite app_nil_r, strides_done by lia. repeat split. intros k day Hk. discriminate.
Qed.

Lemma forecast_loop_throws (env : Env) (data_list : list OpenWeatherResponse)
    (fuel : nat) :
  ∀ (i : nat) (forecasts : list ForecastDay) (e : exn) (w w' : world),
    forecast_loop env fuel data_list i forecasts w = (Throw e, w') →
    calls w' = calls w ∧
    ((e = description_error ∧
      ∃ (k : nat) (dayData : OpenWeatherResponse),
        data_list !! (i + 8 * k)%nat = Some dayData ∧ weather dayData = []) ∨
     (e = OutOfFuel ∧ (i + 8 * fuel < length data_list)%nat)).
Proof.
  induction fuel as [|fuel IH]; intros i forecasts e w w' Hrun;
    simpl in Hrun; destruct (decide (i < length data_list)%nat) as [Hlt | Hge];
    try discriminate.
  - injection Hrun as <- <-. split; [reflexivity|]. right. split; [reflexivity | lia].
  - destruct (data_list !! i) as [dayData|] eqn:Hi.
    + unfold mbind, M_bind in Hrun. rewrite forecast_day_eq in Hrun.
      destruct (weather dayData !! 0%nat) as [w0|] eqn:Hw0.
      * apply IH in Hrun. destruct Hrun as (Hcalls & Hrun).
        rewrite after_date_calls in Hcalls. split; [exact Hcalls|].
        destruct Hrun as [(-> & k & d & Hd & Hnil) | (-> & Hfuel)].
        -- left. split; [reflexivity|]. exists (S k), d.
           replace (i + 8 * S k)%nat with (i + 8 + 8 * k)%nat by lia. auto.
        -- right. split; [reflexivity | lia].
      * injection Hrun as <- <-. rewrite after_date_calls. split; [reflexivity|].
        left. split; [reflexivity|]. exists 0%nat, dayData.
        rewrite Nat.mul_0_r, Nat.add_0_r. split; [exact Hi|].
        destruct (weather dayData); [reflexivity | discriminate].
    + apply lookup_ge_None in Hi. lia.
Qed.

Lemma strides_lt (n k : nat) : (k < strides n 0 ↔ 8 * k < n)%nat.
Proof.
  unfold strides. rewrite Nat.sub_0_r. split; intros H.
  - pose proof (Nat.Div0.mul_div_le (n + 7) 8). lia.
  - apply (Nat.div_le_lower_bound (n + 7) 8 (S k)); lia.
Qed.

(** With the fuel the handler gives it, the loop runs to its end: it
    returns, or throws what reading [weather[0].description] throws. *)
Lemma forecast_loop_fuel (env : Env) (data_list : list OpenWeatherResponse)
    (forecasts : list ForecastDay) (w : world) :
  fst (forecast_loop env (length data_list) data_list 0 forecasts w) ≠ Throw OutOfFuel.
Proof.
  destruct (forecast_loop _ _ _ _ _ _) as [[result | e] w'] eqn:Hrun; [discriminate|].
  apply forecast_loop_throws in Hrun.
  destruct Hrun as (_ & [(-> & _) | (_ & Hfuel)]); [discriminate | lia].
Qed.

(** ** The [get_forecast] handler on a resolved upstream call *)

Lemma call_tool_resolved (env : Env) (raw : option json) (w : world)
    (data_list : list OpenWeatherResponse) :
  isValidForecastArgs raw = true →
  forecast env (forecast_query raw) = Resolved data_list →
  ∃ w' : world,
    calls w' = (calls w ++ [forecast_request raw])%list ∧
    ((¬ selected_empty data_list ∧
      ∃ forecasts : list ForecastDay,
        call_tool env "get_forecast" raw w = (Return (forecast_result forecasts), w') ∧
        length forecasts = strides (length data_list) 0 ∧
        ∀ (k : nat) (day : ForecastDay),
          forecasts !! k = Some day →
          entry_from env data_list w w' (8 * k) day) ∨
     (selected_empty data_list ∧
      call_tool env "get_forecast" raw w = (Throw description_error, w'))).
Proof.
  intros Hv Hup. rewrite (call_tool_valid env raw w Hv), Hup.
  destruct (forecast_loop _ _ _ _ _ _) as [[result | e] w'] eqn:Hrun.
  - apply forecast_loop_returns in Hrun.
    destruct Hrun as (Hcalls & Hticks & new & -> & Hlen & Hnew).
    change (∀ k day, new !! k = Some day →
              entry_from env data_list (called w (forecast_request raw)) w' (8 * k) day)
      in Hnew.
    exists w'. split; [exact Hcalls|]. left. split.
    + intros (k & dayData & Hk & Hnil).
      assert (Hlt : (k < length new)%nat).
      { rewrite Hlen. apply strides_lt. apply lookup_lt_Some in Hk. exact Hk. }
      apply lookup_lt_is_Some in Hlt. destruct Hlt as [day Hday].
      destruct (Hnew k day Hday) as (d & d0 & tick & Hd & Hd0 & _).
      rewrite Hk in Hd. injection Hd as <-. rewrite Hnil in Hd0. discriminate.
    + exists new. repeat split; [exact Hlen|]. exact Hnew.
  - apply forecast_loop_throws in Hrun.
    destruct Hrun as (Hcalls & [(-> & k & d & Hd & Hnil) | (_ & Hfuel)]); [|simpl in Hfuel; lia].
    exists w'. split; [exact Hcalls | right].
    split; [exists k, d; auto | reflexivity].
Qed.

Lemma call_tool_valid_calls (env : Env) (raw : option json) (w : world) :
  isValidForecastArgs raw = true →
  calls (snd (call_tool env "get_forecast" raw w))
  = (calls w ++ [forecast_request raw])%list.
Proof.
  intros Hv. destruct (forecast env (forecast_query raw)) as [data_list | e] eqn:Hup.
  - destruct (call_tool_resolved env raw w data_list Hv Hup)
      as (w' & Hcalls & [(_ & fs & -> & _) | (_ & ->)]); exact Hcalls.
  - rewrite (call_tool_valid env raw w Hv), Hup, tool_catch_world. reflexivity.
Qed.

Lemma call_tool_returns (env : Env) (raw : option json) (w : world)
    (data_list : list OpenWeatherResponse) :
  isValidForecastArgs raw = true →
  forecast env (forecast_query raw) = Resolved data_list →
  ¬ selected_empty data_list →
  ∃ (forecasts : list ForecastDay) (w' : world),
    call_tool env "get_forecast" raw w = (Return (forecast_result forecasts), w') ∧
    length forecasts = strides (length data_list) 0 ∧
    ∀ (k : nat) (day : ForecastDay),
      forecasts !! k = Some day → entry_from env data_list w w' (8 * k) day.
Proof.
  intros Hv Hup Hne.
  destruct (call_tool_resolved env raw w data_list Hv Hup)
    as (w' & _ & [(_ & fs & Hrun & Hlen & Hfs) | (Hempty & _)]); [|contradiction].
  exists fs, w'. auto.
Qed.

Lemma not_selected_empty (data_list : list OpenWeatherResponse) :
  Forall (λ dayData, weather dayData ≠ []) data_list → ¬ selected_empty data_list.
Proof.
  intros Hall (k & dayData & Hk & Hnil).
  rewrite Forall_lookup in Hall. exact (Hall _ _ Hk Hnil).
Qed.

Lemma strides_le_length (n : nat) : (strides n 0 ≤ n)%nat.
Proof.
  unfold strides. rewrite Nat.sub_0_r. destruct n as [|n]; [reflexivity|].
  apply Nat.Div0.div_le_upper_bound. lia.
Qed.

Lemma strides_le (n m : nat) : (n ≤ m * 8)%nat → (strides n 0 ≤ m)%nat.
Proof.
  intros H. unfold strides. rewrite Nat.sub_0_r.
  apply Nat.lt_succ_r, Nat.Div0.div_lt_upper_bound. lia.
Qed.

Lemma strides_gt (n m : nat) : (m * 8 < n)%nat → (m < strides n 0)%nat.
Proof. intros H. apply strides_lt. lia. Qed.

Lemma strides_exact (n m : nat) :
  ((m - 1) * 8 < n)%nat → (n ≤ m * 8)%nat → strides n 0 = m.
Proof.
  intros Hlo Hhi. apply Nat.le_antisymm; [apply strides_le; exact Hhi|].
  destruct m as [|m]; [lia|]. apply strides_gt. simpl in Hlo. lia.
Qed.

Lemma listing_weather (n : nat) : ¬ selected_empty (listing n).
Proof.
  apply not_selected_empty. unfold listing. rewrite Forall_fmap.
  apply Forall_forall. intros k _. discriminate.
Qed.

(** ** The claims about the day count *)

(** C1, as the code has it: a valid call asks the provider for [cnt = days * 8]
    samples, where [days] is [3] when the argument is absent or zero, is
    [min(days, 5)] for every other number, never exceeds [5], and is at least
    [1] whenever the argument is at least [1]; no lower clamp is applied. *)
Theorem effective_days_by_design (env : Env) (raw : option json) (w : world) :
  isValidForecastArgs raw = true →
  let eff := effective_days (as_GetForecastArgs raw) in
  calls (snd (call_tool env "get_forecast" raw w))
    = (calls w ++ [{| endpoint := "forecast";
                      params := {| q := city (as_GetForecastArgs raw);
                                   cnt := Some (eff * 8)%Q |} |}])%list ∧
  (get raw "days" = None → eff = 3%Q) ∧
  (∀ d, get raw "days" = Some (JNumber d) → d == 0 → eff = 3%Q) ∧
  (∀ d, get raw "days" = Some (JNumber d) → ¬ d == 0 → eff == Qmin d 5) ∧
  (eff <= 5)%Q ∧
  (∀ d, get raw "days" = Some (JNumber d) → (1 <= d)%Q → (1 <= eff)%Q).
Proof.
  intros Hv eff. split; [exact (call_tool_valid_calls env raw w Hv)|].
  destruct (as_GetForecastArgs_valid raw Hv) as [_ Hdays].
  subst eff. unfold effective_days.
  destruct (days (as_GetForecastArgs raw)) as [n|]; simpl in Hdays; rewrite Hdays.
  - split; [discriminate|]. unfold or_default. split; [|split; [|split]].
    + intros d [= <-] Hz. apply Qeq_bool_iff in Hz. rewrite Hz. reflexivity.
    + intros d [= <-] Hnz. destruct (Qeq_bool n 0) eqn:Hz.
      * apply Qeq_bool_iff in Hz. contradiction.
      * apply Math_min_Qmin.
    + rewrite Math_min_Qmin. apply Q.le_min_r.
    + intros d [= <-] Hd. rewrite Math_min_Qmin. apply Q.min_glb; [|discriminate].
      destruct (Qeq_bool n 0); [discriminate | exact Hd].
  - split; [reflexivity|]. repeat split; try discriminate.
Qed.

Lemma effective_days_by_design_witness :
  effective_days (as_GetForecastArgs (paris_args 2)) == Qmin 2 5 ∧
  (1 <= effective_days (as_GetForecastArgs (paris_args 2)))%Q ∧
  effective_days (as_GetForecastArgs (paris_args 0)) = 3%Q ∧
  effective_days (as_GetForecastArgs paris_no_days) = 3%Q.
Proof.
  pose proof (effective_days_by_design (provider 16) (paris_args 2) idle eq_refl) as H2.
  pose proof (effective_days_by_design (provider 16) (paris_args 0) idle eq_refl) as H0.
  pose proof (effective_days_by_design (provider 16) paris_no_days idle eq_refl) as Hn.
  cbv zeta in H2, H0, Hn.
  destruct H2 as (_ & _ & _ & Hmin & _ & Hlow).
  destruct H0 as (_ & _ & Hzero & _).
  destruct Hn as (_ & Hnone & _).
  split; [apply (Hmin 2%Q); [reflexivity | discriminate]|].
  split; [apply (Hlow 2%Q); [reflexivity | discriminate]|].
  split; [apply (Hzero 0%Q); reflexivity | apply Hnone; reflexivity].
Defined.

(** C1 as stated fails: a negative [days] passes the validator and goes
    downstream unchanged, outside [[1,5]]; and [days = 0] gives [3], not
    [min(0, 5)]. *)
Lemma effective_days_not_clamped :
  isValidForecastArgs (paris_args (-2)) = true ∧
  ¬ (1 <= effective_days (as_GetForecastArgs (paris_args (-2))) <= 5)%Q ∧
  isValidForecastArgs (paris_args 0) = true ∧
  ¬ effective_days (as_GetForecastArgs (paris_args 0)) == Qmin 0 5.
Proof.
  split; [reflexivity|]. split; [|split; [reflexivity|]].
  - intros [H _]. vm_compute in H. apply H. reflexivity.
  - intros H. vm_compute in H. discriminate.
Qed.

(** ** The claims about faults *)

(** C3: reading any URI other than the default city's throws the protocol
    fault of an unknown resource, calling any tool other than [get_forecast]
    throws the protocol fault [MethodNotFound], and in both cases the world
    is left as it was: no upstream call is issued. *)
Theorem unknown_target_faults (env : Env) (w : world) :
  (∀ request_uri : string,
     request_uri ≠ default_uri →
     read_resource env request_uri w
     = (Throw (McpError InvalidRequest ("Unknown resource: " ++ request_uri)), w)) ∧
  (∀ (name : string) (arguments : option json),
     name ≠ "get_forecast" →
     call_tool env name arguments w
     = (Throw (McpError MethodNotFound ("Unknown tool: " ++ name)), w)).
Proof.
  split.
  - intros request_uri Hne. unfold read_resource.
    apply String.eqb_neq in Hne. unfold default_uri in Hne. rewrite Hne. reflexivity.
  - intros name arguments Hne. unfold call_tool.
    apply String.eqb_neq in Hne. rewrite Hne. reflexivity.
Qed.

Lemma unknown_target_faults_witness :
  read_resource (provider 24) "weather://Nowhere/current" idle
  = (Throw (McpError InvalidRequest "Unknown resource: weather://Nowhere/current"), idle) ∧
  call_tool (provider 24) "get_weather" (paris_args 2) idle
  = (Throw (McpError MethodNotFound "Unknown tool: get_weather"), idle).
Proof.
  destruct (unknown_target_faults (provider 24) idle) as [Hread Hcall]. split.
  - apply (Hread "weather://Nowhere/current"). discriminate.
  - apply (Hcall "get_weather" (paris_args 2)). discriminate.
Defined.

(** C7: a [get_forecast] call whose arguments fail the validator throws the
    protocol fault [InvalidParams] and leaves the world as it was; and
    whenever a tool call does issue an upstream call, its arguments had
    passed the validator. *)
Theorem invalid_arguments_fault (env : Env) (w : world) :
  (∀ arguments : option json,
     isValidForecastArgs arguments = false →
     call_tool env "get_forecast" arguments w
     = (Throw (McpError InvalidParams "Invalid forecast arguments"), w)) ∧
  (∀ (name : string) (arguments : option json),
     calls (snd (call_tool env name arguments w)) ≠ calls w →
     name = "get_forecast" ∧ isValidForecastArgs arguments = true).
Proof.
  split.
  - intros arguments Hinv. unfold call_tool. rewrite Hinv. reflexivity.
  - intros name arguments Hcalls. unfold call_tool in Hcalls.
    destruct (String.eqb_spec name "get_forecast") as [-> | Hne]; simpl in Hcalls;
      [|contradiction].
    destruct (isValidForecastArgs arguments); simpl in Hcalls; [auto | contradiction].
Qed.

Lemma invalid_arguments_fault_witness :
  call_tool (provider 24) "get_forecast" no_city idle
  = (Throw (McpError InvalidParams "Invalid forecast arguments"), idle) ∧
  call_tool (provider 24) "get_forecast" days_as_text idle
  = (Throw (McpError InvalidParams "Invalid forecast arguments"), idle) ∧
  isValidForecastArgs (paris_args 2) = true.
Proof.
  destruct (invalid_arguments_fault (provider 24) idle) as [Hinv Hbefore].
  split; [apply (Hinv no_city); reflexivity|].
  split; [apply (Hinv days_as_text); reflexivity|].
  apply (Hbefore "get_forecast" (paris_args 2)). vm_compute. discriminate.
Defined.



(** ** The claims about the aggregated forecast *)

(** C10: when the upstream call resolves with a list, a result of the
    handler carries exactly [ceil(length list / 8)] entries, whatever [days]
    was asked for; and the handler does return such a result as soon as the
    samples it selects carry their conditions. *)
Theorem forecast_count_is_ceil (env : Env) (raw : option json) (w : world)
    (data_list : list OpenWeatherResponse) :
  isValidForecastArgs raw = true →
  forecast env (forecast_query raw) = Resolved data_list →
  (∀ (result : CallToolResult) (w' : world),
     call_tool env "get_forecast" raw w = (Return result, w') →
     ∃ forecasts : list ForecastDay,
       result = forecast_result forecasts ∧
       length forecasts = ((length data_list + 7) / 8)%nat) ∧
  (¬ selected_empty data_list →
   ∃ (forecasts : list ForecastDay) (w' : world),
     call_tool env "get_forecast" raw w = (Return (forecast_result forecasts), w') ∧
     length forecasts = ((length data_list + 7) / 8)%nat).
Proof.
  intros Hv Hup.
  assert (Hceil : strides (length data_list) 0 = ((length data_list + 7) / 8)%nat).
  { unfold strides. rewrite Nat.sub_0_r. reflexivity. }
  split.
  - intros result w' Hrun.
    destruct (call_tool_resolved env raw w data_list Hv Hup)
      as (w'' & _ & [(_ & fs & Hfs & Hlen & _) | (_ & Hthrow)]).
    + rewrite Hfs in Hrun. injection Hrun as <- _. exists fs. split; [reflexivity|]. congruence.
    + rewrite Hthrow in Hrun. discriminate.
  - intros Hne.
    destruct (call_tool_returns env raw w data_list Hv Hup Hne) as (fs & w' & Hrun & Hlen & _).
    exists fs, w'. split; [exact Hrun | congruence].
Qed.

Lemma forecast_count_is_ceil_witness :
  ∃ (forecasts : list ForecastDay) (w' : world),
    call_tool (provider 20) "get_forecast" (paris_args 2) idle
    = (Return (forecast_result forecasts), w') ∧
    length forecasts = 3%nat.
Proof.
  exact (proj2 (forecast_count_is_ceil (provider 20) (paris_args 2) idle (listing 20)
                  eq_refl eq_refl) (listing_weather 20)).
Defined.

(** C2, as the code has it: the handler never cuts its result to [days].  A
    result has exactly one entry per started group of 8 samples,
    [ceil(length list / 8)], each built from a sample of the list, so never
    more entries than samples.  Hence, for every whole number [n], it has at
    most [n] entries when the provider sent at most [n * 8] samples, exactly
    [n] when it sent more than [(n - 1) * 8] and at most [n * 8], and more
    than [n] when it sent more than [n * 8].  For the day count [days] of the
    request, whole or not: when the provider sent at most [days * 8] samples
    the result has fewer than [days + 1] entries. *)
Theorem forecast_count_bounds (env : Env) (raw : option json) (w : world)
    (data_list : list OpenWeatherResponse) :
  isValidForecastArgs raw = true →
  forecast env (forecast_query raw) = Resolved data_list →
  ¬ selected_empty data_list →
  ∃ (forecasts : list ForecastDay) (w' : world),
    call_tool env "get_forecast" raw w = (Return (forecast_result forecasts), w') ∧
    length forecasts = ((length data_list + 7) / 8)%nat ∧
    (length forecasts ≤ length data_list)%nat ∧
    (∀ (k : nat) (day : ForecastDay),
       forecasts !! k = Some day →
       ∃ dayData : OpenWeatherResponse,
         data_list !! (8 * k)%nat = Some dayData ∧
         temperature day = temp (main dayData)) ∧
    (∀ n : nat, length data_list ≤ n * 8 → length forecasts ≤ n)%nat ∧
    (∀ n : nat, (n - 1) * 8 < length data_list ≤ n * 8 → length forecasts = n)%nat ∧
    (∀ n : nat, n * 8 < length data_list → n < length forecasts)%nat ∧
    (inject_Z (Z.of_nat (length data_list)) <= effective_days (as_GetForecastArgs raw) * 8 →
     inject_Z (Z.of_nat (length forecasts)) < effective_days (as_GetForecastArgs raw) + 1)%Q.
Proof.
  intros Hv Hup Hne.
  destruct (call_tool_returns env raw w data_list Hv Hup Hne) as (fs & w' & Hrun & Hlen & Hfs).
  exists fs, w'. split; [exact Hrun|]. rewrite Hlen.
  split; [unfold strides; rewrite Nat.sub_0_r; reflexivity|].
  split; [apply strides_le_length|]. split.
  - intros k day Hk. destruct (Hfs k day Hk) as (d & d0 & tick & Hd & _ & _ & _ & ->).
    exists d. split; [exact Hd | reflexivity].
  - split; [intros n; apply strides_le|].
    split; [intros n [Hlo Hhi]; apply strides_exact; assumption|].
    split; [intros n; apply strides_gt|].
    intros Hcnt.
    assert (Hz : (Z.of_nat (strides (length data_list) 0) * 8
                  < Z.of_nat (length data_list) + 8)%Z).
    { pose proof (Nat.Div0.mul_div_le (length data_list + 7) 8) as Hdiv.
      unfold strides. rewrite Nat.sub_0_r. lia. }
    rewrite Zlt_Qlt, inject_Z_plus, inject_Z_mult in Hz.
    change (inject_Z 8) with 8%Q in Hz. lra.
Qed.

Lemma forecast_count_bounds_witness :
  ∃ (forecasts : list ForecastDay) (w' : world),
    call_tool (provider 16) "get_forecast" (paris_args 2) idle
    = (Return (forecast_result forecasts), w') ∧
    length forecasts = 2%nat ∧
    (inject_Z (Z.of_nat (length forecasts)) < 2 + 1)%Q.
Proof.
  destruct (forecast_count_bounds (provider 16) (paris_args 2) idle (listing 16)
              eq_refl eq_refl (listing_weather 16))
    as (fs & w' & Hrun & _ & _ & _ & _ & Hexact & _ & Hdays).
  exists fs, w'. split; [exact Hrun|]. split.
  - apply Hexact. vm_compute. split; lia.
  - apply Hdays. vm_compute. discriminate.
Defined.

(** C2 as stated fails: asked for 2 days and given 24 samples, which is at
    least [2 * 8], the handler returns 3 entries. *)
Lemma forecast_count_exceeds_days :
  ∃ (forecasts : list ForecastDay) (w' : world),
    call_tool (provider 24) "get_forecast" (paris_args 2) idle
    = (Return (forecast_result forecasts), w') ∧
    effective_days (as_GetForecastArgs (paris_args 2)) == 2 ∧
    (2 * 8 ≤ length (listing 24))%nat ∧
    ¬ (length forecasts ≤ 2)%nat.
Proof.
  eexists _, _. split; [vm_compute; reflexivity|].
  split; [reflexivity|]. split; [vm_compute; lia | simpl; lia].
Qed.

(** C5, as the code has it: the entries of a result are built from the
    samples at indices 0, 8, 16, ... up to the end of the list, entry [k]
    taking its temperature and its conditions from sample [8 * k]; so a list
    of 24 samples gives 3 entries (from indices 0, 8 and 16) whatever [days]
    is, and a list of 16 samples gives 2. *)
Theorem forecast_selects_every_8th (env : Env) (raw : option json) (w : world)
    (data_list : list OpenWeatherResponse) :
  isValidForecastArgs raw = true →
  forecast env (forecast_query raw) = Resolved data_list →
  ¬ selected_empty data_list →
  ∃ (forecasts : list ForecastDay) (w' : world),
    call_tool env "get_forecast" raw w = (Return (forecast_result forecasts), w') ∧
    (∀ k : nat, is_Some (forecasts !! k) ↔ (8 * k < length data_list)%nat) ∧
    (∀ (k : nat) (day : ForecastDay),
       forecasts !! k = Some day →
       ∃ (dayData : OpenWeatherResponse) (w0 : weather_t),
         data_list !! (8 * k)%nat = Some dayData ∧
         weather dayData !! 0%nat = Some w0 ∧
         temperature day = temp (main dayData) ∧
         conditions day = description w0) ∧
    (length data_list = 24%nat → length forecasts = 3%nat) ∧
    (length data_list = 16%nat → length forecasts = 2%nat).
Proof.
  intros Hv Hup Hne.
  destruct (call_tool_returns env raw w data_list Hv Hup Hne) as (fs & w' & Hrun & Hlen & Hfs).
  exists fs, w'. split; [exact Hrun|]. split; [|split; [|split]].
  - intros k. rewrite lookup_lt_is_Some, Hlen. apply strides_lt.
  - intros k day Hk. destruct (Hfs k day Hk) as (d & d0 & tick & Hd & Hd0 & _ & _ & ->).
    exists d, d0. auto.
  - intros H24. rewrite Hlen, H24. reflexivity.
  - intros H16. rewrite Hlen, H16. reflexivity.
Qed.

Lemma forecast_selects_every_8th_witness :
  ∃ (forecasts : list ForecastDay) (w' : world),
    call_tool (provider 16) "get_forecast" (paris_args 2) idle
    = (Return (forecast_result forecasts), w') ∧
    length forecasts = 2%nat ∧
    (temperature <$> forecasts !! 1%nat) = Some 8%Q.
Proof.
  destruct (forecast_selects_every_8th (provider 16) (paris_args 2) idle (listing 16)
              eq_refl eq_refl (listing_weather 16))
    as (fs & w' & Hrun & Hsome & Hfrom & _ & H16).
  exists fs, w'. split; [exact Hrun|]. split; [exact (H16 eq_refl)|].
  destruct (proj2 (Hsome 1%nat)) as [day Hday]; [vm_compute; lia|].
  destruct (Hfrom 1%nat day Hday) as (d & d0 & Hd & _ & Htemp & _).
  rewrite Hday. simpl. rewrite Htemp. injection Hd as <-. reflexivity.
Defined.

(** C5 as stated fails in its example: with a listing of 24 samples and
    [days = 2] the result does not have exactly 2 entries. *)
Lemma forecast_of_24_samples_is_not_2_days :
  ¬ ∃ (day0 day8 : ForecastDay) (w' : world),
      call_tool (provider 24) "get_forecast" (paris_args 2) idle
      = (Return (forecast_result [day0; day8]), w').
Proof.
  intros (day0 & day8 & w' & H). vm_compute in H. discriminate H.
Qed.

(** C8: in a result, the date of entry [k] is the part of sample [8 * k]'s
    [dt_txt] before its first space when the sample has a [dt_txt]; when it
    has none, it is the part before the ['T'] of a clock reading taken while
    the call was handled. *)
Theorem forecast_date_from_sample (env : Env) (raw : option json) (w : world)
    (data_list : list OpenWeatherResponse) :
  isValidForecastArgs raw = true →
  forecast env (forecast_query raw) = Resolved data_list →
  ¬ selected_empty data_list →
  ∃ (forecasts : list ForecastDay) (w' : world),
    call_tool env "get_forecast" raw w = (Return (forecast_result forecasts), w') ∧
    (∀ k : nat, (8 * k < length data_list)%nat → is_Some (forecasts !! k)) ∧
    ∀ (k : nat) (day : ForecastDay),
      forecasts !! k = Some day →
      ∃ dayData : OpenWeatherResponse,
        data_list !! (8 * k)%nat = Some dayData ∧
        match dt_txt dayData with
        | Some s => date day = before_first " " s
        | None => ∃ tick : nat, (ticks w ≤ tick < ticks w')%nat ∧
                                date day = before_first "T" (clock env tick)
        end.
Proof.
  intros Hv Hup Hne.
  destruct (call_tool_returns env raw w data_list Hv Hup Hne) as (fs & w' & Hrun & Hlen & Hfs).
  exists fs, w'. split; [exact Hrun|]. split.
  - intros k Hk. apply lookup_lt_is_Some. rewrite Hlen. apply strides_lt. exact Hk.
  - intros k day Hk. destruct (Hfs k day Hk) as (d & d0 & tick & Hd & _ & Hlo & Hhi & ->).
    exists d. split; [exact Hd|]. unfold day_at. simpl.
    destruct (dt_txt d) as [s|]; [reflexivity|].
    exists tick. split; [split; [exact Hlo | exact (Hhi eq_refl)] | reflexivity].
Qed.

Lemma forecast_date_from_sample_witness :
  (∃ (forecasts : list ForecastDay) (w' : world),
     call_tool (provider 16) "get_forecast" (paris_args 2) idle
     = (Return (forecast_result forecasts), w') ∧
     (date <$> forecasts !! 1%nat) = Some "2024-05-01") ∧
  (∃ (forecasts : list ForecastDay) (w' : world),
     call_tool provider_no_date "get_forecast" paris_no_days idle
     = (Return (forecast_result forecasts), w') ∧
     (date <$> forecasts !! 0%nat) = Some "2024-05-01").
Proof.
  split.
  - destruct (forecast_date_from_sample (provider 16) (paris_args 2) idle (listing 16)
                eq_refl eq_refl (listing_weather 16)) as (fs & w' & Hrun & Hsome & Hdate).
    exists fs, w'. split; [exact Hrun|].
    destruct (Hsome 1%nat) as [day Hday]; [vm_compute; lia|].
    destruct (Hdate 1%nat day Hday) as (d & Hd & Hdt). injection Hd as <-.
    rewrite Hday. simpl in *. rewrite Hdt. reflexivity.
  - assert (Hne : ¬ selected_empty [sample_no_date]).
    { apply not_selected_empty. repeat constructor. discriminate. }
    destruct (forecast_date_from_sample provider_no_date paris_no_days idle [sample_no_date]
                eq_refl eq_refl Hne) as (fs & w' & Hrun & Hsome & Hdate).
    exists fs, w'. split; [exact Hrun|].
    destruct (Hsome 0%nat) as [day Hday]; [vm_compute; lia|].
    destruct (Hdate 0%nat day Hday) as (d & Hd & Hdt). injection Hd as <-.
    rewrite Hday. simpl in *. destruct Hdt as (tick & _ & ->). reflexivity.
Defined.

(** C9: an empty [weather] list is not defaulted.  When the current-weather
    answer has one, reading the resource throws the [TypeError] of
    [weather[0].description]; when a sample selected by the aggregation loop
    has one, the [get_forecast] call throws it.  Neither handler turns it
    into a result or into a protocol fault. *)
Theorem empty_weather_propagates (env : Env) (w : world) :
  (∀ data : OpenWeatherResponse,
     current_weather env {| q := API_CONFIG.DEFAULT_CITY; cnt := None |} = Resolved data →
     weather data = [] →
     fst (read_resource env default_uri w) = Throw description_error) ∧
  (∀ (raw : option json) (data_list : list OpenWeatherResponse)
     (k : nat) (dayData : OpenWeatherResponse),
     isValidForecastArgs raw = true →
     forecast env (forecast_query raw) = Resolved data_list →
     data_list !! (8 * k)%nat = Some dayData →
     weather dayData = [] →
     fst (call_tool env "get_forecast" raw w) = Throw description_error).
Proof.
  split.
  - intros data Hup Hnil. unfold read_resource.
    change (String.eqb default_uri _) with true. cbn [negb].
    unfold try_catch, mbind, M_bind, axios_get. rewrite Hup.
    unfold first_description. rewrite Hnil. reflexivity.
  - intros raw data_list k dayData Hv Hup Hk Hnil.
    destruct (call_tool_resolved env raw w data_list Hv Hup)
      as (w' & _ & [(Hne & _) | (_ & ->)]); [|reflexivity].
    exfalso. apply Hne. exists k, dayData. auto.
Qed.

Lemma empty_weather_propagates_witness :
  fst (read_resource provider_no_weather default_uri idle) = Throw description_error ∧
  fst (call_tool provider_no_weather "get_forecast" (paris_args 2) idle)
  = Throw description_error.
Proof.
  destruct (empty_weather_propagates provider_no_weather idle) as [Hread Hcall]. split.
  - apply (Hread sample_no_weather); reflexivity.
  - apply (Hcall (paris_args 2) (listing 8 ++ [sample_no_weather])%list 1%nat sample_no_weather);
      reflexivity.
Defined.

(** ** Reading the resource *)

(** The three ways a read of the default city's resource ends. *)
Lemma read_resource_default (env : Env) (w : world) :
  read_resource env default_uri w =
  match current_weather env current_query with
  | Rejected e => resource_catch env e (called w current_request)
  | Resolved data =>
      match weather data !! 0%nat with
      | Some w0 =>
          (Return (weather_result default_uri
                     {| wd_temperature := temp (main data);
                        wd_conditions := description w0;
                        wd_humidity := humidity (main data);
                        wd_wind_speed := speed (wind data);
                        wd_timestamp := clock env (ticks w) |}),
           ticked (called w current_request))
      | None => (Throw description_error, called w current_request)
      end
  end.
Proof.
  unfold read_resource. change (String.eqb default_uri _) with true. cbn [negb].
  unfold try_catch, mbind, M_bind, axios_get.
  fold current_query. fold current_request. fold (called w current_request).
  destruct (current_weather env current_query) as [data | e]; [|reflexivity].
  unfold first_description. destruct (weather data !! 0%nat); reflexivity.
Qed.

(** X1: when the provider answers the current-weather call with a payload
    that has conditions, reading the default city's resource returns one
    JSON content item under the requested URI whose temperature, humidity
    and wind speed are the payload's, whose conditions are the payload's
    first description and whose timestamp is the clock reading; it issues
    exactly one upstream call, to the current-weather endpoint for the
    default city, and reads the clock once. *)
Theorem read_resource_success (env : Env) (w : world)
    (data : OpenWeatherResponse) (w0 : weather_t) :
  current_weather env {| q := "San Francisco"; cnt := None |} = Resolved data →
  weather data !! 0%nat = Some w0 →
  read_resource env "weather://San Francisco/current" w
  = (Return {| contents :=
                 [{| uri := "weather://San Francisco/current";
                     mimeType := "application/json";
                     rc_text := JSON_stringify_weather
                       {| wd_temperature := temp (main data);
                          wd_conditions := description w0;
                          wd_humidity := humidity (main data);
                          wd_wind_speed := speed (wind data);
                          wd_timestamp := clock env (ticks w) |} |}] |},
     {| calls := (calls w ++ [{| endpoint := "weather";
                                 params := {| q := "San Francisco"; cnt := None |} |}])%list;
        ticks := S (ticks w) |}).
Proof.
  intros Hup Hw0. change "weather://San Francisco/current" with default_uri.
  rewrite read_resource_default. change {| q := "San Francisco"; cnt := None |} with current_query in Hup.
  rewrite Hup, Hw0. reflexivity.
Qed.

Lemma read_resource_success_witness :
  ∃ (v : WeatherData) (w' : world),
    read_resource (provider 24) "weather://San Francisco/current" idle
    = (Return (weather_result "weather://San Francisco/current" v), w') ∧
    wd_conditions v = "clear sky" ∧ wd_timestamp v = "2024-05-01T12:00:00.000Z" ∧
    length (calls w') = 1%nat.
Proof.
  eexists _, _. split.
  - exact (read_resource_success (provider 24) idle (sample 0)
             {| description := "clear sky" |} eq_refl eq_refl).
  - repeat split.
Defined.



Lemma unknown_resource_fault (env : Env) (w : world) (request_uri : string) :
  request_uri ≠ default_uri →
  read_resource env request_uri w
  = (Throw (McpError InvalidRequest ("Unknown resource: " ++ request_uri)), w).
Proof.
  intros Hne. unfold read_resource.
  apply String.eqb_neq in Hne. unfold default_uri in Hne. rewrite Hne. reflexivity.
Qed.

(** X3: what a resource read can and cannot do.  It issues at most one
    upstream call, always the current-weather call for the default city.  It
    returns only after that call resolved, and then one content item.  The
    only protocol faults it throws are the unknown-resource fault, with the
    world untouched, and [InternalError], after a rejected upstream call
    whose body could be read.  Anything else it throws is a [TypeError],
    thrown after the upstream call: an axios error never escapes as such. *)
Theorem read_resource_outcomes (env : Env) (request_uri : string) (w : world) :
  ∃ (c : completion ReadResourceResult) (w' : world),
    read_resource env request_uri w = (c, w') ∧
    (w' = w ∨ w' = called w current_request ∨ w' = ticked (called w current_request)) ∧
    match c with
    | Return result =>
        request_uri = default_uri ∧
        (∃ data, current_weather env current_query = Resolved data) ∧
        ∃ v, result = weather_result request_uri v
    | Throw (McpError InvalidRequest msg) =>
        request_uri ≠ default_uri ∧ w' = w ∧ msg = "Unknown resource: " ++ request_uri
    | Throw (McpError InternalError msg) =>
        request_uri = default_uri ∧ w' = called w current_request ∧
        ∃ e, current_weather env current_query = Rejected e ∧ readable e ∧
             msg = reported_text env e
    | Throw (TypeError msg) =>
        request_uri = default_uri ∧ w' = called w current_request
    | Throw _ => False
    end.
Proof.
  destruct (String.eqb_spec request_uri default_uri) as [-> | Hne].
  - rewrite read_resource_default.
    destruct (current_weather env current_query) as [data | e] eqn:Hup.
    + destruct (weather data !! 0%nat) as [w0|]; eexists _, _;
        (split; [reflexivity|]); (split; [auto|]); simpl; eauto.
    + destruct (resource_catch_cases env e (called w current_request))
        as [(Hr & ->) | (Hr & msg & ->)]; eexists _, _;
        (split; [reflexivity|]); (split; [auto|]); simpl; eauto 10.
  - eexists _, _. split; [apply (unknown_resource_fault env w request_uri Hne)|].
    split; [auto|]. simpl. auto.
Qed.

(** ** Every way a tool call ends *)

Lemma unknown_tool_fault (env : Env) (w : world) (name : string)
    (arguments : option json) :
  name ≠ "get_forecast" →
  call_tool env name arguments w
  = (Throw (McpError MethodNotFound ("Unknown tool: " ++ name)), w).
Proof.
  intros Hne. unfold call_tool. apply String.eqb_neq in Hne. rewrite Hne. reflexivity.
Qed.

Lemma invalid_params_fault (env : Env) (w : world) (arguments : option json) :
  isValidForecastArgs arguments = false →
  call_tool env "get_forecast" arguments w
  = (Throw (McpError InvalidParams "Invalid forecast arguments"), w).
Proof. intros Hinv. unfold call_tool. rewrite Hinv. reflexivity. Qed.

(** X4: what a tool call can and cannot do.  It issues at most one
    upstream call, always the forecast call for the given city, and only for
    the tool [get_forecast] with valid arguments.  The only protocol faults
    it throws are [MethodNotFound] and [InvalidParams], with the world
    untouched.  It returns a forecast only after a resolved upstream call
    and a result flagged [isError] only after a rejected one whose body could
    be read.  Anything else it throws is a [TypeError], thrown after the
    upstream call: an axios error never escapes as such, and no
    [InternalError] fault is thrown. *)
Theorem call_tool_outcomes (env : Env) (name : string) (arguments : option json)
    (w : world) :
  ∃ (c : completion CallToolResult) (w' : world),
    call_tool env name arguments w = (c, w') ∧
    (calls w' = calls w ∨ calls w' = (calls w ++ [forecast_request arguments])%list) ∧
    match c with
    | Return result =>
        name = "get_forecast" ∧ isValidForecastArgs arguments = true ∧
        calls w' = (calls w ++ [forecast_request arguments])%list ∧
        ((∃ data_list forecasts,
            forecast env (forecast_query arguments) = Resolved data_list ∧
            result = forecast_result forecasts) ∨
         (∃ e, forecast env (forecast_query arguments) = Rejected e ∧ readable e ∧
               ticks w' = ticks w ∧ result = error_result (reported_text env e)))
    | Throw (McpError MethodNotFound msg) =>
        name ≠ "get_forecast" ∧ w' = w ∧ msg = "Unknown tool: " ++ name
    | Throw (McpError InvalidParams msg) =>
        name = "get_forecast" ∧ isValidForecastArgs arguments = false ∧ w' = w
    | Throw (TypeError msg) =>
        name = "get_forecast" ∧ isValidForecastArgs arguments = true ∧
        calls w' = (calls w ++ [forecast_request arguments])%list
    | Throw _ => False
    end.
Proof.
  destruct (String.eqb_spec name "get_forecast") as [-> | Hne].
  - destruct (isValidForecastArgs arguments) eqn:Hv.
    + destruct (forecast env (forecast_query arguments)) as [data_list | e] eqn:Hup.
      * destruct (call_tool_resolved env arguments w data_list Hv Hup)
          as (w' & Hcalls & [(_ & fs & Hrun & _) | (Hempty & Hrun)]);
          eexists _, w'; (split; [exact Hrun|]); (split; [auto|]); simpl; eauto 10.
      * rewrite (call_tool_valid env arguments w Hv), Hup.
        destruct (tool_catch_cases env e (called w (forecast_request arguments)))
          as [(Hr & ->) | (Hr & msg & ->)]; eexists _, _;
          (split; [reflexivity|]); (split; [auto|]); simpl; eauto 10.
    + eexists _, _. split; [apply invalid_params_fault; exact Hv|]. simpl. auto.
  - eexists _, _. split; [apply unknown_tool_fault; exact Hne|]. simpl. auto.
Qed.

(** ** The catalogs and the handlers agree *)

(** X5: the resource catalog and the read handler agree.  The catalog lists
    one resource; a URI is rejected as an unknown resource exactly when the
    catalog does not list it; and what a read returns is one content item
    under the URI and the MIME type of a listed resource. *)
Theorem listed_resources_are_readable (env : Env) (request_uri : string) (w : world) :
  (request_uri ∈ Resource.uri <$> listed_resources ↔
   ∀ msg, fst (read_resource env request_uri w) ≠ Throw (McpError InvalidRequest msg)) ∧
  (∀ (result : ReadResourceResult) (w' : world),
     read_resource env request_uri w = (Return result, w') →
     ∃ (entry : Resource.t) (v : WeatherData),
       entry ∈ listed_resources ∧
       contents result = [{| uri := Resource.uri entry;
                             mimeType := Resource.mimeType entry;
                             rc_text := JSON_stringify_weather v |}]) ∧
  length listed_resources = 1%nat.
Proof.
  split; [|split; [|reflexivity]].
  - change (Resource.uri <$> listed_resources) with [default_uri].
    rewrite list_elem_of_singleton. split.
    + intros -> msg. rewrite read_resource_default.
      destruct (current_weather env current_query) as [data | e].
      * destruct (weather data !! 0%nat); discriminate.
      * destruct (resource_catch_cases env e (called w current_request))
          as [(_ & ->) | (_ & msg' & ->)]; discriminate.
    + intros Hread. destruct (String.eqb_spec request_uri default_uri) as [-> | Hne];
        [reflexivity|].
      exfalso. apply (Hread ("Unknown resource: " ++ request_uri)).
      rewrite (unknown_resource_fault env w request_uri Hne). reflexivity.
  - intros result w' Hrun.
    destruct (String.eqb_spec request_uri default_uri) as [-> | Hne].
    + rewrite read_resource_default in Hrun.
      destruct (current_weather env current_query) as [data | e].
      * destruct (weather data !! 0%nat) as [w0|]; [|discriminate].
        injection Hrun as <- _. eexists _, _. split; [apply list_elem_of_here|]. reflexivity.
      * destruct (resource_catch_cases env e (called w current_request))
          as [(_ & Hc) | (_ & msg' & Hc)]; rewrite Hc in Hrun; discriminate.
    + rewrite (unknown_resource_fault env w request_uri Hne) in Hrun. discriminate.
Qed.

Lemma listed_resources_are_readable_witness :
  (∀ msg, fst (read_resource (provider 24) "weather://San Francisco/current" idle)
          ≠ Throw (McpError InvalidRequest msg)) ∧
  "weather://Nowhere/current" ∉ Resource.uri <$> listed_resources.
Proof.
  split.
  - apply (listed_resources_are_readable (provider 24) "weather://San Francisco/current" idle).
    apply list_elem_of_here.
  - intros Hin.
    apply (listed_resources_are_readable (provider 24) "weather://Nowhere/current" idle)
      with (msg := "Unknown resource: weather://Nowhere/current") in Hin.
    apply Hin. reflexivity.
Defined.

(** X6: the tool catalog and the call handler agree.  The catalog lists one
    tool, and a name is rejected as an unknown tool exactly when the catalog
    does not list it. *)
Theorem listed_tools_are_callable (env : Env) (name : string)
    (arguments : option json) (w : world) :
  (name ∈ Tool.name <$> listed_tools ↔
   ∀ msg, fst (call_tool env name arguments w) ≠ Throw (McpError MethodNotFound msg)) ∧
  length listed_tools = 1%nat.
Proof.
  split; [|reflexivity].
  change (Tool.name <$> listed_tools) with ["get_forecast"].
  rewrite list_elem_of_singleton. split.
  - intros -> msg. destruct (isValidForecastArgs arguments) eqn:Hv.
    + destruct (forecast env (forecast_query arguments)) as [data_list | e] eqn:Hup.
      * destruct (call_tool_resolved env arguments w data_list Hv Hup)
          as (w' & _ & [(_ & fs & -> & _) | (_ & ->)]); discriminate.
      * rewrite (call_tool_valid env arguments w Hv), Hup.
        destruct (tool_catch_cases env e (called w (forecast_request arguments)))
          as [(_ & ->) | (_ & msg' & ->)]; discriminate.
    + rewrite (invalid_params_fault env w arguments Hv). discriminate.
  - intros Hcall. destruct (String.eqb_spec name "get_forecast") as [-> | Hne];
      [reflexivity|].
    exfalso. apply (Hcall ("Unknown tool: " ++ name)).
    rewrite (unknown_tool_fault env w name arguments Hne). reflexivity.
Qed.

Lemma listed_tools_are_callable_witness :
  (∀ msg, fst (call_tool (provider 24) "get_forecast" no_city idle)
          ≠ Throw (McpError MethodNotFound msg)) ∧
  "get_weather" ∉ Tool.name <$> listed_tools.
Proof.
  split.
  - apply (listed_tools_are_callable (provider 24) "get_forecast" no_city idle).
    apply list_elem_of_here.
  - intros Hin.
    apply (listed_tools_are_callable (provider 24) "get_weather" no_city idle)
      with (msg := "Unknown tool: get_weather") in Hin.
    apply Hin. reflexivity.
Defined.

(** ** The advertised schema and the validator *)

Lemma schema_required_advertised : schema_required advertised_schema = ["city"].
Proof. reflexivity. Qed.

Lemma schema_type_advertised (k : string) :
  schema_type advertised_schema k =
  if decide (k = "city") then Some "string"
  else if decide (k = "days") then Some "number" else None.
Proof.
  unfold schema_type, schema_property.
  change (get (Some advertised_schema) "properties")
    with (Some (JObject (<["city" := JObject (list_to_map
                             [("type", JString "string");
                              ("description", JString "City name")])]>
                          (<["days" := JObject (list_to_map
                             [("type", JString "number");
                              ("description", JString "Number of days (1-5)");
                              ("minimum", JNumber 1);
                              ("maximum", JNumber 5)])]> ∅)))).
  cbn [get]. rewrite lookup_insert. destruct (decide (k = "city")) as [-> | Hc].
  - rewrite decide_True by reflexivity. reflexivity.
  - rewrite decide_False by congruence. rewrite lookup_insert.
    destruct (decide (k = "days")) as [-> | Hd].
    + rewrite decide_True by reflexivity. reflexivity.
    + rewrite decide_False by congruence. rewrite lookup_empty. reflexivity.
Qed.

Lemma typeof_is_string (v : json) : typeof (Some v) = "string" ↔ ∃ s, v = JString s.
Proof.
  destruct v; simpl; split; intros H; try discriminate; eauto;
    destruct H as [s' H]; discriminate.
Qed.

Lemma typeof_is_number (v : json) : typeof (Some v) = "number" ↔ ∃ n, v = JNumber n.
Proof.
  destruct v; simpl; split; intros H; try discriminate; eauto;
    destruct H as [n' H]; discriminate.
Qed.

(** X7: the validator enforces exactly the [required] and [type] keywords
    of the input schema that the tool catalog advertises: an argument value
    passes the validator if and only if it is an object that has every
    required property and whose declared properties, when present, have
    their declared type.  The schema's [minimum] and [maximum] play no
    part. *)
Theorem validator_meets_advertised_schema (raw : option json) :
  isValidForecastArgs raw = true ↔ meets_required_and_types advertised_schema raw.
Proof.
  unfold meets_required_and_types. split.
  - destruct raw as [[]|]; try discriminate. intros H.
    apply isValidForecastArgs_object in H. destruct H as [[s Hs] Hd].
    exists fields. split; [reflexivity|]. split.
    + intros k Hk. rewrite schema_required_advertised in Hk.
      apply list_elem_of_singleton in Hk. subst k. rewrite Hs. eauto.
    + intros k ty v Hty Hv. rewrite schema_type_advertised in Hty.
      destruct (decide (k = "city")) as [-> | _].
      * injection Hty as <-. rewrite Hs in Hv. injection Hv as <-. reflexivity.
      * destruct (decide (k = "days")) as [-> | _]; [|discriminate].
        injection Hty as <-. destruct (Hd v Hv) as [n ->]. reflexivity.
  - intros (fields & -> & Hreq & Hty). apply isValidForecastArgs_object. split.
    + destruct (Hreq "city") as [v Hv].
      { rewrite schema_required_advertised. apply list_elem_of_singleton. reflexivity. }
      assert (Hs : typeof (Some v) = "string").
      { apply (Hty "city" "string" v); [|exact Hv]. rewrite schema_type_advertised. reflexivity. }
      apply typeof_is_string in Hs. destruct Hs as [s ->]. eauto.
    + intros v Hv. apply typeof_is_number.
      apply (Hty "days" "number" v); [|exact Hv]. rewrite schema_type_advertised. reflexivity.
Qed.

Lemma validator_meets_advertised_schema_witness :
  meets_required_and_types advertised_schema (paris_args 9) ∧
  ¬ meets_required_and_types advertised_schema days_as_text.
Proof.
  split.
  - apply (validator_meets_advertised_schema (paris_args 9)). reflexivity.
  - intros H. apply (validator_meets_advertised_schema days_as_text) in H. discriminate H.
Defined.





(** ** The loop as a traversal of every 8th sample *)

Lemma stride_from_drop {A : Type} (skip : nat) (l : list A) :
  stride_from skip l = every_8th (drop skip l).
Proof.
  revert skip. induction l as [|x rest IH]; intros [|skip]; try reflexivity.
  simpl. apply IH.
Qed.

Lemma every_8th_cons {A : Type} (x : A) (rest : list A) :
  every_8th (x :: rest) = x :: every_8th (drop 7 rest).
Proof. unfold every_8th at 1. simpl. rewrite stride_from_drop. reflexivity. Qed.

Lemma every_8th_lookup {A : Type} (l : list A) (k : nat) :
  every_8th l !! k = l !! (8 * k)%nat.
Proof.
  revert l. induction k as [|k IH]; intros [|x rest]; try reflexivity.
  rewrite every_8th_cons. cbn [lookup list_lookup]. rewrite IH, lookup_drop.
  replace (8 * S k)%nat with (S (7 + 8 * k)) by lia. reflexivity.
Qed.

Lemma every_8th_ext {A : Type} (l1 l2 : list A) :
  (∀ k, l1 !! (8 * k)%nat = l2 !! (8 * k)%nat) → every_8th l1 = every_8th l2.
Proof. intros H. apply list_eq. intros k. rewrite !every_8th_lookup. apply H. Qed.

Lemma forecast_loop_collect (env : Env) (data_list : list OpenWeatherResponse)
    (fuel : nat) :
  ∀ (i : nat) (forecasts : list ForecastDay) (w : world),
    (length data_list ≤ i + 8 * fuel)%nat →
    forecast_loop env fuel data_list i forecasts w
    = collect_days env (every_8th (drop i data_list)) forecasts w.
Proof.
  induction fuel as [|fuel IH]; intros i forecasts w Hfuel; simpl;
    destruct (decide (i < length data_list)%nat) as [Hlt | Hge];
    try (rewrite drop_ge by lia; reflexivity); [lia|].
  destruct (lookup_lt_is_Some_2 data_list i Hlt) as [dayData Hi].
  rewrite Hi, (drop_S _ _ _ Hi), every_8th_cons, drop_drop.
  replace (S i + 7)%nat with (i + 8)%nat by lia. cbn [collect_days].
  unfold mbind, M_bind. destruct (forecast_day env dayData w) as [[day | e] w1]; [|reflexivity].
  apply IH. lia.
Qed.

Lemma collect_days_clock (env1 env2 : Env) (selected : list OpenWeatherResponse) :
  clock env1 = clock env2 →
  ∀ (forecasts : list ForecastDay) (w : world),
    collect_days env1 selected forecasts w = collect_days env2 selected forecasts w.
Proof.
  intros Hclock. induction selected as [|dayData rest IH]; intros forecasts w; [reflexivity|].
  cbn [collect_days]. unfold mbind, M_bind. rewrite !forecast_day_eq.
  unfold day_at. rewrite Hclock.
  destruct (weather dayData !! 0%nat); [apply IH | reflexivity].
Qed.

Lemma collect_days_dated (env : Env) (selected : list OpenWeatherResponse) :
  Forall (λ dayData, is_Some (dated_day dayData)) selected →
  ∀ (forecasts : list ForecastDay) (w : world),
    collect_days env selected forecasts w
    = (Return (forecasts ++ omap dated_day selected)%list, w).
Proof.
  induction 1 as [|dayData rest [day Hday] _ IH]; intros forecasts w.
  - simpl. rewrite app_nil_r. reflexivity.
  - cbn [collect_days omap list_omap]. unfold mbind, M_bind. rewrite forecast_day_eq.
    unfold dated_day in Hday. unfold dated_day at 1. unfold after_date, day_at.
    destruct (dt_txt dayData) as [s|]; [|discriminate].
    destruct (weather dayData !! 0%nat) as [w0|]; [|discriminate].
    rewrite IH, <- app_assoc. reflexivity.
Qed.

Lemma collect_days_extends (env : Env) (selected : list OpenWeatherResponse) :
  ∀ (forecasts result : list ForecastDay) (w w' : world),
    collect_days env selected forecasts w = (Return result, w') →
    ∃ new, result = (forecasts ++ new)%list ∧ length new = length selected.
Proof.
  induction selected as [|dayData rest IH]; intros forecasts result w w' Hrun.
  - injection Hrun as <- _. exists []. rewrite app_nil_r. auto.
  - cbn [collect_days] in Hrun. unfold mbind, M_bind in Hrun.
    destruct (forecast_day env dayData w) as [[day | e] w1]; [|discriminate].
    apply IH in Hrun. destruct Hrun as (new & -> & Hlen).
    exists (day :: new). rewrite <- app_assoc. simpl. auto.
Qed.

Lemma collect_days_prefix (env : Env) (first rest : list OpenWeatherResponse) :
  ∀ (forecasts result : list ForecastDay) (w w' : world),
    collect_days env (first ++ rest) forecasts w = (Return result, w') →
    ∃ w1, collect_days env first forecasts w
          = (Return (take (length forecasts + length first) result), w1).
Proof.
  induction first as [|dayData first IH]; intros forecasts result w w' Hrun.
  - apply collect_days_extends in Hrun. destruct Hrun as (new & -> & _).
    exists w. simpl. rewrite Nat.add_0_r, take_app_length. reflexivity.
  - cbn [app collect_days] in Hrun |- *. unfold mbind, M_bind in Hrun |- *.
    destruct (forecast_day env dayData w) as [[day | e] w1]; [|discriminate].
    apply IH in Hrun. destruct Hrun as (w2 & Hrun). exists w2.
    rewrite Hrun, length_app. simpl.
    replace (length forecasts + 1 + length first)%nat
      with (length forecasts + S (length first))%nat by lia.
    reflexivity.
Qed.

Lemma collect_days_throws (env : Env) (selected : list OpenWeatherResponse) :
  ∀ (forecasts : list ForecastDay) (e : exn) (w w' : world),
    collect_days env selected forecasts w = (Throw e, w') → e = description_error.
Proof.
  induction selected as [|dayData rest IH]; intros forecasts e w w' Hrun; [discriminate|].
  cbn [collect_days] in Hrun. unfold mbind, M_bind in Hrun. rewrite forecast_day_eq in Hrun.
  destruct (weather dayData !! 0%nat) as [w0|]; [exact (IH _ _ _ _ Hrun) | congruence].
Qed.

(** A valid call whose upstream call resolved, with the loop as a
    traversal. *)
Lemma call_tool_collect (env : Env) (raw : option json) (w : world)
    (data_list : list OpenWeatherResponse) :
  isValidForecastArgs raw = true →
  forecast env (forecast_query raw) = Resolved data_list →
  call_tool env "get_forecast" raw w =
  match collect_days env (every_8th data_list) [] (called w (forecast_request raw)) with
  | (Return forecasts, w') => (Return (forecast_result forecasts), w')
  | (Throw e, w') => (Throw e, w')
  end.
Proof.
  intros Hv Hup. rewrite (call_tool_valid env raw w Hv), Hup.
  rewrite forecast_loop_collect by lia. rewrite drop_0.
  destruct (collect_days env _ [] _) as [[fs | e] w'] eqn:Hrun; [reflexivity|].
  apply collect_days_throws in Hrun. subst e. reflexivity.
Qed.

(** ** What the forecast depends on *)

Lemma omap_lookup_total {A B : Type} (f : A → option B) (l : list A) :
  Forall (λ x, is_Some (f x)) l → ∀ k, omap f l !! k = l !! k ≫= f.
Proof.
  induction 1 as [|x rest [y Hy] _ IH]; intros k; [reflexivity|].
  cbn [omap list_omap]. rewrite Hy. destruct k as [|k]; simpl; [exact (eq_sym Hy) | apply IH].
Qed.

Lemma dated_day_is_Some (dayData : OpenWeatherResponse) :
  is_Some (dt_txt dayData) → weather dayData ≠ [] → is_Some (dated_day dayData).
Proof.
  intros [s Hs] Hw. unfold dated_day. rewrite Hs.
  destruct (weather dayData) as [|w0 ws]; [contradiction | simpl; eauto].
Qed.

Lemma listing_lookup (n k : nat) (dayData : OpenWeatherResponse) :
  listing n !! k = Some dayData → dayData = sample k.
Proof.
  unfold listing. rewrite list_lookup_fmap. intros H.
  destruct (seq 0 n !! k) as [j|] eqn:Hj; [|discriminate].
  apply lookup_seq in Hj. destruct Hj as [-> _]. simpl in H. congruence.
Qed.

(** X10: when every sample the loop visits carries its date string and its
    conditions, a valid call returns exactly the list whose entry [k] is made
    of sample [8 * k]: the part of its [dt_txt] before the first space, its
    temperature and its first description.  The clock is not read, so the
    result is a function of the upstream list alone. *)
Theorem forecast_of_dated_samples (env : Env) (raw : option json) (w : world)
    (data_list : list OpenWeatherResponse) :
  isValidForecastArgs raw = true →
  forecast env (forecast_query raw) = Resolved data_list →
  (∀ (k : nat) (dayData : OpenWeatherResponse),
     data_list !! (8 * k)%nat = Some dayData →
     is_Some (dt_txt dayData) ∧ weather dayData ≠ []) →
  ∃ forecasts : list ForecastDay,
    call_tool env "get_forecast" raw w
    = (Return (forecast_result forecasts),
       {| calls := (calls w ++ [forecast_request raw])%list; ticks := ticks w |}) ∧
    ∀ k : nat, forecasts !! k = data_list !! (8 * k)%nat ≫= dated_day.
Proof.
  intros Hv Hup Hsel.
  assert (Hall : Forall (λ d, is_Some (dated_day d)) (every_8th data_list)).
  { apply Forall_lookup. intros k d Hk. rewrite every_8th_lookup in Hk.
    destruct (Hsel k d Hk). apply dated_day_is_Some; assumption. }
  exists (omap dated_day (every_8th data_list)). split.
  - rewrite (call_tool_collect env raw w data_list Hv Hup).
    rewrite (collect_days_dated env _ Hall). reflexivity.
  - intros k. rewrite (omap_lookup_total _ _ Hall), every_8th_lookup. reflexivity.
Qed.

Lemma forecast_of_dated_samples_witness :
  ∃ forecasts : list ForecastDay,
    call_tool (provider 16) "get_forecast" (paris_args 2) idle
    = (Return (forecast_result forecasts),
       called idle (forecast_request (paris_args 2))) ∧
    forecasts !! 1%nat = dated_day (sample 8).
Proof.
  destruct (forecast_of_dated_samples (provider 16) (paris_args 2) idle (listing 16)
              eq_refl eq_refl) as (fs & Hrun & Hfs).
  - intros k d Hk. apply listing_lookup in Hk. subst d. split; [eexists; reflexivity | discriminate].
  - exists fs. split; [exact Hrun|]. rewrite Hfs. reflexivity.
Defined.

(** X11: the forecast depends on the upstream list only through the
    samples at indices 0, 8, 16, ...: with the same clock, two upstream lists
    that agree at these indices give the same outcome, whatever the samples
    in between are and even when those are malformed. *)
Theorem forecast_reads_selected_only (env1 env2 : Env) (raw : option json) (w : world)
    (list1 list2 : list OpenWeatherResponse) :
  isValidForecastArgs raw = true →
  clock env1 = clock env2 →
  forecast env1 (forecast_query raw) = Resolved list1 →
  forecast env2 (forecast_query raw) = Resolved list2 →
  (∀ k : nat, list1 !! (8 * k)%nat = list2 !! (8 * k)%nat) →
  call_tool env1 "get_forecast" raw w = call_tool env2 "get_forecast" raw w.
Proof.
  intros Hv Hclock Hup1 Hup2 Hsel.
  rewrite (call_tool_collect env1 raw w list1 Hv Hup1).
  rewrite (call_tool_collect env2 raw w list2 Hv Hup2).
  rewrite (every_8th_ext list1 list2 Hsel).
  rewrite (collect_days_clock env1 env2 _ Hclock). reflexivity.
Qed.

Lemma forecast_reads_selected_only_witness :
  call_tool (provider_of ragged_listing) "get_forecast" (paris_args 2) idle
  = call_tool (provider 9) "get_forecast" (paris_args 2) idle.
Proof.
  apply (forecast_reads_selected_only (provider_of ragged_listing) (provider 9)
           (paris_args 2) idle ragged_listing (listing 9)); try reflexivity.
  intros [|[|k]]; [reflexivity | reflexivity |].
  rewrite !(proj2 (lookup_ge_None _ _)); [reflexivity | |]; simpl; lia.
Defined.

(** X12: cutting the upstream list after [8 * n] samples cuts the forecast
    after [n] entries and changes nothing else: when a call returns a
    forecast for a list, the same call for the first [8 * n] samples of that
    list returns the first [n] entries of that forecast. *)
Theorem forecast_of_truncated_listing (env1 env2 : Env) (raw : option json)
    (w w1 : world) (data_list : list OpenWeatherResponse) (n : nat)
    (forecasts : list ForecastDay) :
  isValidForecastArgs raw = true →
  clock env1 = clock env2 →
  forecast env1 (forecast_query raw) = Resolved data_list →
  forecast env2 (forecast_query raw) = Resolved (take (8 * n) data_list) →
  call_tool env1 "get_forecast" raw w = (Return (forecast_result forecasts), w1) →
  ∃ w2 : world,
    call_tool env2 "get_forecast" raw w
    = (Return (forecast_result (take n forecasts)), w2).
Proof.
  intros Hv Hclock Hup1 Hup2 Hrun.
  rewrite (call_tool_collect env1 raw w data_list Hv Hup1) in Hrun.
  rewrite (call_tool_collect env2 raw w _ Hv Hup2).
  assert (Hcut : every_8th (take (8 * n) data_list) = take n (every_8th data_list)).
  { apply list_eq. intros k. rewrite every_8th_lookup.
    destruct (decide (k < n)%nat) as [Hlt | Hge].
    - rewrite !lookup_take_lt by lia. rewrite every_8th_lookup. reflexivity.
    - rewrite !lookup_take_ge by lia. reflexivity. }
  rewrite Hcut.
  destruct (collect_days env1 (every_8th data_list) [] (called w (forecast_request raw)))
    as [[fs | e] w'] eqn:Hcollect; [|discriminate].
  injection Hrun as <- <-.
  pose proof (collect_days_extends env1 _ _ _ _ _ Hcollect) as (new & Hfs & Hlen).
  simpl in Hfs. subst new.
  rewrite <- (take_drop n (every_8th data_list)) in Hcollect.
  apply collect_days_prefix in Hcollect. destruct Hcollect as (w2 & Hprefix).
  exists w2. rewrite <- (collect_days_clock env1 env2 _ Hclock), Hprefix.
  simpl. rewrite length_take, <- Hlen, <- take_take, (take_ge fs (length fs)) by lia.
  reflexivity.
Qed.

Lemma forecast_of_truncated_listing_witness :
  ∃ (forecasts : list ForecastDay) (w1 w2 : world),
    call_tool (provider 24) "get_forecast" (paris_args 2) idle
    = (Return (forecast_result forecasts), w1) ∧
    call_tool (provider 16) "get_forecast" (paris_args 2) idle
    = (Return (forecast_result (take 2 forecasts)), w2).
Proof.
  destruct (call_tool_returns (provider 24) (paris_args 2) idle (listing 24)
              eq_refl eq_refl (listing_weather 24)) as (fs & w1 & Hrun & _).
  destruct (forecast_of_truncated_listing (provider 24) (provider 16) (paris_args 2)
              idle w1 (listing 24) 2 fs eq_refl eq_refl eq_refl eq_refl Hrun) as (w2 & Hcut).
  exists fs, w1, w2. split; assumption.
Defined.

(** X13: an empty upstream list is not an error: a valid call returns an
    empty forecast, not flagged, after its one upstream call and without
    reading the clock. *)
Theorem forecast_of_empty_listing (env : Env) (raw : option json) (w : world) :
  isValidForecastArgs raw = true →
  forecast env (forecast_query raw) = Resolved [] →
  call_tool env "get_forecast" raw w
  = (Return {| content := [{| type := "text"; text := JSON_stringify_forecasts [] |}];
               isError := None |},
     {| calls := (calls w ++ [forecast_request raw])%list; ticks := ticks w |}).
Proof.
  intros Hv Hup. rewrite (call_tool_valid env raw w Hv), Hup. reflexivity.
Qed.

Lemma forecast_of_empty_listing_witness :
  fst (call_tool (provider 0) "get_forecast" (paris_args 2) idle)
  = Return (forecast_result []).
Proof.
  rewrite (forecast_of_empty_listing (provider 0) (paris_args 2) idle eq_refl eq_refl).
  reflexivity.
Defined.

(** ** The date of an entry *)

Lemma before_first_occurs (sep : Ascii.ascii) (s : string) :
  occurs sep (before_first sep s) = false.
Proof.
  induction s as [|c rest IH]; [reflexivity|].
  rewrite before_first_cons. destruct (Ascii.eqb c sep) eqn:Hc; [reflexivity|].
  simpl. rewrite Hc. exact IH.
Qed.

Lemma before_first_prefix (sep : Ascii.ascii) (s : string) :
  String.prefix (before_first sep s) s = true.
Proof.
  induction s as [|c rest IH]; [reflexivity|].
  rewrite before_first_cons. destruct (Ascii.eqb c sep); [reflexivity|].
  simpl. destruct (ascii_dec c c); [exact IH | congruence].
Qed.

Lemma before_first_app (sep : Ascii.ascii) (d t : string) :
  occurs sep d = false → before_first sep (d ++ String sep t) = d.
Proof.
  induction d as [|c d IH]; intros Hd.
  - change ("" ++ String sep t) with (String sep t).
    rewrite before_first_cons, Ascii.eqb_refl. reflexivity.
  - simpl in Hd. apply orb_false_iff in Hd. destruct Hd as [Hc Hd].
    change (String c d ++ String sep t) with (String c (d ++ String sep t)).
    rewrite before_first_cons, Hc, (IH Hd). reflexivity.
Qed.

Lemma before_first_whole (sep : Ascii.ascii) (s : string) :
  occurs sep s = false → before_first sep s = s.
Proof.
  induction s as [|c rest IH]; intros Hs; [reflexivity|].
  simpl in Hs. apply orb_false_iff in Hs. destruct Hs as [Hc Hs].
  rewrite before_first_cons, Hc, (IH Hs). reflexivity.
Qed.

(** X14: the date of an entry built from a sample with a [dt_txt] is a
    prefix of that string and holds no space; it is the date part [d] when
    the string reads [d], a space, and a time, and the whole string when the
    string has no space.  Building the entry does not read the clock. *)
Theorem forecast_day_date (env : Env) (dayData : OpenWeatherResponse)
    (s : string) (w0 : weather_t) (w : world) :
  dt_txt dayData = Some s →
  weather dayData !! 0%nat = Some w0 →
  ∃ day : ForecastDay,
    forecast_day env dayData w = (Return day, w) ∧
    String.prefix (date day) s = true ∧
    occurs " " (date day) = false ∧
    (∀ d t, s = d ++ " " ++ t → occurs " " d = false → date day = d) ∧
    (occurs " " s = false → date day = s).
Proof.
  intros Hs Hw0. eexists. split.
  - rewrite forecast_day_eq, Hw0. unfold after_date, day_at. rewrite Hs. reflexivity.
  - cbn [date]. split; [apply before_first_prefix|]. split; [apply before_first_occurs|].
    split; [|apply before_first_whole].
    intros d t -> Hd. apply before_first_app. exact Hd.
Qed.

Lemma forecast_day_date_witness :
  ∃ day : ForecastDay,
    forecast_day (provider 16) (sample 8) idle = (Return day, idle) ∧
    date day = "2024-05-01".
Proof.
  destruct (forecast_day_date (provider 16) (sample 8) "2024-05-01 09:00:00"
              {| description := "clear sky" |} idle eq_refl eq_refl)
    as (day & Hrun & _ & _ & Hdate & _).
  exists day. split; [exact Hrun|].
  apply (Hdate "2024-05-01" "09:00:00"); reflexivity.
Defined.

(** X15: the date of an entry built from a sample without [dt_txt] comes
    from one clock reading: it is the part of the ISO timestamp before its
    ['T'], so the day [d] when the timestamp reads [d], ['T'], and a time. *)
Theorem forecast_day_date_fallback (env : Env) (dayData : OpenWeatherResponse)
    (w0 : weather_t) (w : world) :
  dt_txt dayData = None →
  weather dayData !! 0%nat = Some w0 →
  ∃ day : ForecastDay,
    forecast_day env dayData w
    = (Return day, {| calls := calls w; ticks := S (ticks w) |}) ∧
    String.prefix (date day) (clock env (ticks w)) = true ∧
    occurs "T" (date day) = false ∧
    (∀ d t, clock env (ticks w) = d ++ "T" ++ t → occurs "T" d = false → date day = d).
Proof.
  intros Hs Hw0. eexists. split.
  - rewrite forecast_day_eq, Hw0. unfold after_date, day_at. rewrite Hs. reflexivity.
  - cbn [date]. split; [apply before_first_prefix|]. split; [apply before_first_occurs|].
    intros d t -> Hd. apply before_first_app. exact Hd.
Qed.

Lemma forecast_day_date_fallback_witness :
  ∃ day : ForecastDay,
    forecast_day provider_no_date sample_no_date idle = (Return day, ticked idle) ∧
    date day = "2024-05-01".
Proof.
  destruct (forecast_day_date_fallback provider_no_date sample_no_date
              {| description := "mist" |} idle eq_refl eq_refl)
    as (day & Hrun & _ & _ & Hdate).
  exists day. split; [exact Hrun|].
  apply (Hdate "2024-05-01" "12:00:00.000Z"); reflexivity.
Defined.

(** ** How often the clock is read *)

Lemma collect_days_ticks (env : Env) (selected : list OpenWeatherResponse) :
  ∀ (forecasts result : list ForecastDay) (w w' : world),
    collect_days env selected forecasts w = (Return result, w') →
    ticks w' = (ticks w + length (filter (λ d, dt_txt d = None) selected))%nat.
Proof.
  induction selected as [|dayData rest IH]; intros forecasts result w w' Hrun.
  - injection Hrun as _ <-. simpl. lia.
  - cbn [collect_days] in Hrun. unfold mbind, M_bind in Hrun.
    rewrite forecast_day_eq in Hrun.
    destruct (weather dayData !! 0%nat) as [w0|]; [|discriminate].
    apply IH in Hrun. rewrite Hrun, filter_cons. unfold after_date.
    destruct (dt_txt dayData) as [s|].
    + rewrite decide_False by discriminate. reflexivity.
    + rewrite decide_True by reflexivity. simpl. lia.
Qed.

(** X16: a call that returns a forecast has read the clock once for each
    visited sample that has no [dt_txt], and not otherwise: the number of
    clock readings is the number of samples without [dt_txt] among those at
    indices 0, 8, 16, ... *)
Theorem forecast_clock_readings (env : Env) (raw : option json) (w w' : world)
    (data_list : list OpenWeatherResponse) (forecasts : list ForecastDay) :
  isValidForecastArgs raw = true →
  forecast env (forecast_query raw) = Resolved data_list →
  call_tool env "get_forecast" raw w = (Return (forecast_result forecasts), w') →
  ticks w' = (ticks w + length (filter (λ d, dt_txt d = None) (every_8th data_list)))%nat ∧
  ∀ k : nat, every_8th data_list !! k = data_list !! (8 * k)%nat.
Proof.
  intros Hv Hup Hrun. split; [|apply every_8th_lookup].
  rewrite (call_tool_collect env raw w data_list Hv Hup) in Hrun.
  destruct (collect_days env (every_8th data_list) [] (called w (forecast_request raw)))
    as [[fs | e] w1] eqn:Hcollect; [|discriminate].
  injection Hrun as _ <-. apply collect_days_ticks in Hcollect. exact Hcollect.
Qed.

Lemma forecast_clock_readings_witness :
  ∃ (forecasts : list ForecastDay) (w' : world),
    call_tool provider_no_date "get_forecast" paris_no_days idle
    = (Return (forecast_result forecasts), w') ∧
    ticks w' = 1%nat.
Proof.
  assert (Hne : ¬ selected_empty [sample_no_date]).
  { apply not_selected_empty. repeat constructor. discriminate. }
  destruct (call_tool_returns provider_no_date paris_no_days idle [sample_no_date]
              eq_refl eq_refl Hne) as (fs & w' & Hrun & _).
  exists fs, w'. split; [exact Hrun|].
  exact (proj1 (forecast_clock_readings provider_no_date paris_no_days idle w'
                  [sample_no_date] fs eq_refl eq_refl Hrun)).
Defined.
